(** * GISN: the weighted multi-source decision synthesizer of [src/gisn.py]

    A shallow embedding of [UniversalIntelligenceSynthesis] and
    [GlobalCoordinationNetwork].  The Python code computes on [float]; the
    embedding is written once over an interface [PyFloat] of the float
    operations the source uses, and is instantiated twice:

    - [B64_float]: IEEE 754 binary64 as specified by the Standard Library's
      [SpecFloat], the arithmetic the program runs on; it computes, so that
      a run can be evaluated bit for bit;
    - [R_float]: the real numbers, the exact arithmetic the source's
      formulas denote (no rounding, no overflow, no NaN), in which the
      specification's ideal values are stated.

    Python dictionaries are insertion-ordered association lists, exceptions
    are an error result, and the one object that outlives a call, the
    dictionary [self.domain_weights], lives in an explicit store. *)

From Stdlib Require Import List String ZArith Bool Lia Permutation.
From Stdlib Require Import QArith Qabs.
From Stdlib Require Import Reals Lra.
From Stdlib Require Import Floats.SpecFloat.
Import ListNotations.
Close Scope Q_scope.
Close Scope R_scope.

Set Implicit Arguments.

(** ** Exceptions and results *)

(** The first three constructors are the built-in exceptions the source can
    raise ([max] of an empty iterable, [/] by zero, a missing dictionary
    key).  The last three are the classes of the specification's error
    taxonomy; the source defines none of them and no code path below
    constructs them. *)
Inductive exn : Type :=
| ValueError
| ZeroDivisionError
| KeyError
| InputValidationError
| UnsupportedDomainError
| EmptyOptionSet.

Inductive result (A : Type) : Type :=
| Ok (a : A)
| Raise (e : exn).
Arguments Ok {A} a.
Arguments Raise {A} e.

Definition rbind {A B} (m : result A) (k : A -> result B) : result B :=
  match m with
  | Ok a => k a
  | Raise e => Raise e
  end.

Declare Scope py_scope.
Delimit Scope py_scope with py.
Notation "x <- m ;; k" := (rbind m (fun x => k))
  (at level 61, m at next level, right associativity) : py_scope.

(** ** The float interface *)

Class PyFloat (F : Type) : Type := {
  of_int : Z -> F;          (* int -> float conversion *)
  fadd : F -> F -> F;
  fsub : F -> F -> F;
  fmul : F -> F -> F;
  fdiv : F -> F -> F;       (* the quotient, for a non-zero divisor *)
  fabs : F -> F;
  fsqrt : F -> F;
  fgtb : F -> F -> bool;    (* Python's [>] *)
  fis_zero : F -> bool      (* [x == 0] *)
}.

Module RealArith.
Local Open Scope R_scope.

Definition Rgtb (x y : R) : bool := if Rlt_dec y x then true else false.
Definition Ris_zero (x : R) : bool := if Req_dec_T x 0 then true else false.

#[global] Instance R_float : PyFloat R := {
  of_int := IZR;
  fadd := Rplus;
  fsub := Rminus;
  fmul := Rmult;
  fdiv := Rdiv;
  fabs := Rabs;
  fsqrt := sqrt;
  fgtb := Rgtb;
  fis_zero := Ris_zero
}.
End RealArith.

Module Binary64.
Local Open Scope Z_scope.

Definition prec : Z := 53.
Definition emax : Z := 1024.

Definition b64_of_int (z : Z) : spec_float := binary_normalize prec emax z 0 false.
Definition b64_is_zero (x : spec_float) : bool :=
  match x with
  | S754_zero _ => true
  | _ => false
  end.

#[global] Instance B64_float : PyFloat spec_float := {
  of_int := b64_of_int;
  fadd := SFadd prec emax;
  fsub := SFsub prec emax;
  fmul := SFmul prec emax;
  fdiv := SFdiv prec emax;
  fabs := SFabs;
  fsqrt := SFsqrt prec emax;
  fgtb := fun x y => SFltb y x;
  fis_zero := b64_is_zero
}.

(** The rational value of a finite binary64 number (0 for the others). *)
Definition b64_to_Q (x : spec_float) : Q :=
  match x with
  | S754_finite s m e =>
      let v := if s then Z.neg m else Z.pos m in
      if 0 <=? e then inject_Z (v * 2 ^ e)
      else Qmake v (Z.to_pos (2 ^ (- e)))
  | _ => 0%Q
  end.

Definition b64_is_finite (x : spec_float) : bool :=
  match x with
  | S754_finite _ _ _ | S754_zero _ => true
  | _ => false
  end.
End Binary64.

(** ** Insertion-ordered dictionaries *)

Section Dict.
Variables K V : Type.
Variable eqb : K -> K -> bool.

Definition dict : Type := list (K * V).

Fixpoint dict_get (k : K) (d : dict) : option V :=
  match d with
  | [] => None
  | (k', v) :: tl => if eqb k k' then Some v else dict_get k tl
  end.

(** [d.get(k, default)] *)
Definition dict_get_default (k : K) (default : V) (d : dict) : V :=
  match dict_get k d with
  | Some v => v
  | None => default
  end.

(** [d[k]] *)
Definition dict_getitem (k : K) (d : dict) : result V :=
  match dict_get k d with
  | Some v => Ok v
  | None => Raise KeyError
  end.

(** [d[k] = v]: an existing key keeps its position, a new key goes last. *)
Fixpoint dict_set (k : K) (v : V) (d : dict) : dict :=
  match d with
  | [] => [(k, v)]
  | (k', v') :: tl =>
      if eqb k k' then (k', v) :: tl else (k', v') :: dict_set k v tl
  end.

Definition dict_keys (d : dict) : list K := map fst d.
Definition dict_values (d : dict) : list V := map snd d.
End Dict.

Arguments dict_get {K V} eqb k d.
Arguments dict_get_default {K V} eqb k default d.
Arguments dict_getitem {K V} eqb k d.
Arguments dict_set {K V} eqb k v d.
Arguments dict_keys {K V} d.
Arguments dict_values {K V} d.

(** ** The domain catalog *)

Inductive Domain : Type :=
| GAME_THEORY
| BEHAVIORAL_PSYCHOLOGY
| SYSTEMS_THINKING
| ECONOMICS
| ETHICS
| PHYSICS
| COMPLEXITY_SCIENCE
| NETWORK_THEORY
| INFORMATION_THEORY
| EVOLUTIONARY_BIOLOGY.

(** Iteration order of [for dom in Domain]: definition order. *)
Definition all_domains : list Domain :=
  [GAME_THEORY; BEHAVIORAL_PSYCHOLOGY; SYSTEMS_THINKING; ECONOMICS; ETHICS;
   PHYSICS; COMPLEXITY_SCIENCE; NETWORK_THEORY; INFORMATION_THEORY;
   EVOLUTIONARY_BIOLOGY].

Definition Domain_eq_dec (a b : Domain) : {a = b} + {a <> b}.
Proof. decide equality. Defined.

Definition Domain_eqb (a b : Domain) : bool :=
  if Domain_eq_dec a b then true else false.

(** ** The store

    [self.domain_weights] is a dictionary object that outlives every call;
    [dict.copy] allocates a new object.  A reference is an index into the
    store.  Reading a reference that was never allocated gives the empty
    dictionary and writing to it does nothing; neither happens from a
    constructed engine. *)

Definition ref : Type := nat.

Section Store.
Variable F : Type.

Definition store : Type := list (dict Domain F).

Definition store_get (r : ref) (st : store) : dict Domain F := nth r st [].

Fixpoint store_set (r : ref) (d : dict Domain F) (st : store) : store :=
  match st, r with
  | [], _ => []
  | _ :: tl, O => d :: tl
  | c :: tl, S r' => c :: store_set r' d tl
  end.

(** Stateful computations; the store survives an exception. *)
Definition M (A : Type) : Type := store -> result A * store.

Definition ret {A} (a : A) : M A := fun st => (Ok a, st).

Definition bind {A B} (m : M A) (k : A -> M B) : M B :=
  fun st =>
    match m st with
    | (Ok a, st') => k a st'
    | (Raise e, st') => (Raise e, st')
    end.

Definition lift {A} (m : result A) : M A := fun st => (m, st).

(** [dict(...)] / [d.copy()]: a new object *)
Definition new_dict (d : dict Domain F) : M ref :=
  fun st => (Ok (List.length st), st ++ [d]).

Definition dict_copy (r : ref) : M ref :=
  fun st => new_dict (store_get r st) st.

(** [r[k]] *)
Definition getitem (r : ref) (k : Domain) : M F :=
  fun st => (dict_getitem Domain_eqb k (store_get r st), st).

(** [r[k] = v] *)
Definition setitem (r : ref) (k : Domain) (v : F) : M unit :=
  fun st => (Ok tt, store_set r (dict_set Domain_eqb k v (store_get r st)) st).

Definition values (r : ref) : M (list F) :=
  fun st => (Ok (dict_values (store_get r st)), st).

Definition items (r : ref) : M (dict Domain F) :=
  fun st => (Ok (store_get r st), st).
End Store.

Arguments ret {F A} a.
Arguments bind {F A B} m k.
Arguments lift {F A} m.
Arguments new_dict {F} d.
Arguments dict_copy {F} r.
Arguments getitem {F} r k.
Arguments setitem {F} r k v.
Arguments values {F} r.
Arguments items {F} r.
Arguments store_get {F} r st.
Arguments store_set {F} r d st.

Notation "x <~ m ;; k" := (bind m (fun x => k))
  (at level 61, m at next level, right associativity) : py_scope.
Notation "m ;;; k" := (bind m (fun _ => k))
  (at level 61, right associativity) : py_scope.

(** ** Data model *)

Section Model.
Context {F : Type} `{PyFloat F}.
Local Open Scope py_scope.
Local Open Scope string_scope.

(** A float literal [n/d] written in decimal ([0.15] is [float_lit 15 100]).
    Over binary64 the correctly rounded quotient of the two integers is the
    double nearest to the decimal, which is what the literal denotes. *)
Definition float_lit (n d : Z) : F := fdiv (of_int n) (of_int d).

(** Python's [x / y] on floats. *)
Definition py_div (x y : F) : result F :=
  if fis_zero y then Raise ZeroDivisionError else Ok (fdiv x y).

(** Python's [a / b] on ints (true division), for operands a double
    represents exactly. *)
Definition int_truediv (a b : Z) : result F :=
  if (b =? 0)%Z then Raise ZeroDivisionError else Ok (fdiv (of_int a) (of_int b)).

(** The built-in [sum]: left to right from the int [0], as documented.
    (CPython 3.12 and later also compensate the rounding error of a float
    sum.  That refinement is not modelled: over the reals it changes
    nothing, in binary64 it can change the last places of a sum.) *)
Definition py_sum (xs : list F) : F := fold_left fadd xs (of_int 0).

(** ** NumPy's reductions

    [np.mean(xs)] on a list of floats is [np.add.reduce] over a contiguous
    float64 array divided by the number of elements, and [np.std(xs)] is
    the square root of the mean of the squared deviations from that mean
    (the sum divided by N: the population figure).  NumPy adds a contiguous
    array by pairwise summation: fewer than eight numbers are added left to
    right; up to [PW_BLOCKSIZE] numbers go to eight running sums, which
    start as the first eight numbers and take every following group of
    eight, are then added in pairs, and the numbers after the last full
    group are added to the result one by one; a longer array is split in
    two at a multiple of eight and the two sums are added.  The definitions
    follow that order, so that the binary64 instance rounds as NumPy does.
    (The sign of a sum that is zero is not modelled.) *)

Definition PW_BLOCKSIZE : nat := 128.

(** The eight running sums [r[0..7]]. *)
Definition sums8 : Type := (F * F * F * F * F * F * F * F)%type.

(** [for (i = 8; i < n - (n % 8); i += 8) r[j] += a[i + j]] *)
Fixpoint unrolled_loop (r : sums8) (xs : list F) : sums8 * list F :=
  match xs with
  | x0 :: x1 :: x2 :: x3 :: x4 :: x5 :: x6 :: x7 :: tl =>
      let '(r0, r1, r2, r3, r4, r5, r6, r7) := r in
      unrolled_loop (fadd r0 x0, fadd r1 x1, fadd r2 x2, fadd r3 x3,
                     fadd r4 x4, fadd r5 x5, fadd r6 x6, fadd r7 x7) tl
  | _ => (r, xs)
  end.

(** The sum of at most [PW_BLOCKSIZE] numbers. *)
Definition block_sum (xs : list F) : F :=
  match xs with
  | x0 :: x1 :: x2 :: x3 :: x4 :: x5 :: x6 :: x7 :: tl =>
      let '((r0, r1, r2, r3, r4, r5, r6, r7), rest) :=
        unrolled_loop (x0, x1, x2, x3, x4, x5, x6, x7) tl in
      fold_left fadd rest
        (fadd (fadd (fadd r0 r1) (fadd r2 r3)) (fadd (fadd r4 r5) (fadd r6 r7)))
  | _ => fold_left fadd xs (of_int 0)
  end.

(** The recursion on the two halves; [fuel] bounds its depth. *)
Fixpoint pairwise_sum_rec (fuel : nat) (xs : list F) : F :=
  let n := List.length xs in
  match fuel with
  | O => block_sum xs
  | S fuel' =>
      if (n <=? PW_BLOCKSIZE)%nat then block_sum xs
      else
        let n2 := (n / 2 - (n / 2) mod 8)%nat in
        fadd (pairwise_sum_rec fuel' (firstn n2 xs))
             (pairwise_sum_rec fuel' (skipn n2 xs))
  end.

(** The length of the list is more fuel than the recursion uses
    ([pairwise_sum_rec_fuel] below). *)
Definition pairwise_sum (xs : list F) : F := pairwise_sum_rec (List.length xs) xs.

(** On an empty list [np.mean] and [np.std] return [nan] (with a warning):
    here [0 / 0], which is [nan] in binary64. *)
Definition np_mean (xs : list F) : F :=
  fdiv (pairwise_sum xs) (of_int (Z.of_nat (List.length xs))).

Definition np_std (xs : list F) : F :=
  let m := np_mean xs in
  fsqrt (np_mean (map (fun x => let d := fsub x m in fmul d d) xs)).

(** Values of type [Any] in [constraints]. *)
Inductive Any : Type :=
| AnyNone
| AnyBool (b : bool)
| AnyInt (z : Z)
| AnyFloat (x : F)
| AnyStr (s : string).

Record Decision : Type := {
  context : string;
  stakeholders : list string;
  options : list string;
  constraints : dict string Any;
  timeframe : Z;
  impact_scale : string;
  uncertainty_level : F
}.

Record DomainAnalysis : Type := {
  domain : Domain;
  insights : list string;
  predictions : list (string * F);
  confidence : F;
  interaction_effects : dict Domain F
}.

(** The dictionaries the engine returns. *)
Record Synthesis : Type := {
  recommended_option : string;
  option_scores : dict string F;
  synthesis_confidence : F
}.

Record Phase : Type := {
  phase : string;
  focus : string;
  duration : string
}.

Record Protocol : Type := {
  implementation_phases : list Phase
}.

Record ConfidenceMetrics : Type := {
  average_confidence : F;
  synthesis_reliability : F
}.

Record SynthesisResult : Type := {
  decision_synthesis : Synthesis;
  coordination_protocol : Protocol;
  confidence_metrics : ConfidenceMetrics
}.

(** ** class UniversalIntelligenceSynthesis *)

Record UniversalIntelligenceSynthesis : Type := {
  domain_weights : ref;
  synthesis_patterns : dict string (list Domain);
  coordination_matrix : list (list F)
}.

Definition _initialize_domain_weights : dict Domain F :=
  [ (GAME_THEORY, float_lit 15 100);
    (BEHAVIORAL_PSYCHOLOGY, float_lit 12 100);
    (SYSTEMS_THINKING, float_lit 13 100);
    (ECONOMICS, float_lit 11 100);
    (ETHICS, float_lit 10 100);
    (PHYSICS, float_lit 9 100);
    (COMPLEXITY_SCIENCE, float_lit 10 100);
    (NETWORK_THEORY, float_lit 8 100);
    (INFORMATION_THEORY, float_lit 7 100);
    (EVOLUTIONARY_BIOLOGY, float_lit 5 100) ].

Definition _load_synthesis_patterns : dict string (list Domain) :=
  [ ("coordination_emergence", [GAME_THEORY; NETWORK_THEORY; BEHAVIORAL_PSYCHOLOGY]);
    ("system_optimization", [SYSTEMS_THINKING; PHYSICS; COMPLEXITY_SCIENCE]);
    ("ethical_alignment", [ETHICS; EVOLUTIONARY_BIOLOGY; BEHAVIORAL_PSYCHOLOGY]);
    ("information_flow", [INFORMATION_THEORY; NETWORK_THEORY; COMPLEXITY_SCIENCE]) ].

(** [__init__] *)
Definition UniversalIntelligenceSynthesis_init : M F UniversalIntelligenceSynthesis :=
  w <~ new_dict _initialize_domain_weights ;;
  ret {| domain_weights := w;
         synthesis_patterns := _load_synthesis_patterns;
         coordination_matrix :=
           repeat (repeat (of_int 0) (List.length all_domains)) (List.length all_domains) |}.

(** [[(opt, 1 / len(d.options)) for opt in d.options]] *)
Fixpoint uniform_predictions (n : Z) (opts : list string) : result (list (string * F)) :=
  match opts with
  | [] => Ok []
  | opt :: tl =>
      p <- int_truediv 1 n ;;
      rest <- uniform_predictions n tl ;;
      Ok ((opt, p) :: rest)
  end.

Definition _game_theory_analysis (d : Decision) : result DomainAnalysis :=
  preds <- uniform_predictions (Z.of_nat (List.length (options d))) (options d) ;;
  Ok {| domain := GAME_THEORY;
        insights := ["Nash equilibrium"; "Coalition stability"];
        predictions := preds;
        confidence := float_lit 85 100;
        interaction_effects := [(BEHAVIORAL_PSYCHOLOGY, float_lit 9 10)] |}.

(** The [domain] argument is untyped in the source and never inspected, so
    the embedding takes it at any type. *)
Definition analyze_domain {T : Type} (decision : Decision) (domain : T)
  : result DomainAnalysis :=
  _game_theory_analysis decision.

Definition _calculate_context_weights
    (self : UniversalIntelligenceSynthesis) (d : Decision) : M F (dict Domain F) :=
  w <~ dict_copy (domain_weights self) ;;
  (if (impact_scale d =? "global")%string
   then x <~ getitem w SYSTEMS_THINKING ;;
        setitem w SYSTEMS_THINKING (fmul x (float_lit 15 10))
   else ret tt) ;;;
  vs <~ values w ;;
  let total := py_sum vs in
  kvs <~ items w ;;
  lift (fold_left
          (fun acc kv =>
             out <- acc ;;
             q <- py_div (snd kv) total ;;
             Ok (dict_set Domain_eqb (fst kv) q out))
          kvs (Ok [])).

(** The inner loop of [_perform_synthesis]. *)
Definition accumulate_predictions (w c : F) (preds : list (string * F))
    (scores : dict string F) : dict string F :=
  fold_left
    (fun scores op =>
       dict_set String.eqb (fst op)
         (fadd (dict_get_default String.eqb (fst op) (of_int 0) scores)
               (fmul (fmul (snd op) w) c))
         scores)
    preds scores.

(** The outer loop. *)
Definition accumulate_scores (analyses : dict Domain DomainAnalysis)
    (weights : dict Domain F) : result (dict string F) :=
  fold_left
    (fun acc da =>
       scores <- acc ;;
       w <- dict_getitem Domain_eqb (fst da) weights ;;
       Ok (accumulate_predictions w (confidence (snd da)) (predictions (snd da)) scores))
    analyses (Ok []).

(** [max(scores, key=scores.get)]: the first key whose value no later value
    exceeds; [ValueError] on an empty dictionary.  The keys of a dictionary
    are distinct, so [scores.get(k)] is the value stored with [k]. *)
Fixpoint max_loop (best : string * F) (rest : dict string F) : string :=
  match rest with
  | [] => fst best
  | kv :: tl => if fgtb (snd kv) (snd best) then max_loop kv tl else max_loop best tl
  end.

Definition py_max_key (scores : dict string F) : result string :=
  match scores with
  | [] => Raise ValueError
  | kv :: tl => Ok (max_loop kv tl)
  end.

Definition confidences (analyses : dict Domain DomainAnalysis) : list F :=
  map confidence (dict_values analyses).

Definition _perform_synthesis (analyses : dict Domain DomainAnalysis)
    (weights : dict Domain F) : result Synthesis :=
  scores <- accumulate_scores analyses weights ;;
  best <- py_max_key scores ;;
  Ok {| recommended_option := best;
        option_scores := scores;
        synthesis_confidence := np_mean (confidences analyses) |}.

Definition _generate_coordination_protocol (decision : Decision)
    (analyses : dict Domain DomainAnalysis) (synthesis : Synthesis) : Protocol :=
  {| implementation_phases :=
       [ {| phase := "foundation"; focus := "stakeholder_alignment"; duration := "20%" |};
         {| phase := "coordination"; focus := "synchronized_action"; duration := "60%" |};
         {| phase := "optimization"; focus := "continuous_improvement"; duration := "20%" |} ] |}.

Definition _calculate_confidence_metrics (analyses : dict Domain DomainAnalysis)
    : ConfidenceMetrics :=
  let confs := confidences analyses in
  {| average_confidence := np_mean confs;
     synthesis_reliability := fmul (np_mean confs) (fsub (of_int 1) (np_std confs)) |}.

(** [{dom: self.analyze_domain(decision, dom) for dom in Domain}] *)
Definition analyze_all (decision : Decision) : result (dict Domain DomainAnalysis) :=
  fold_left
    (fun acc dom =>
       out <- acc ;;
       a <- analyze_domain decision dom ;;
       Ok (dict_set Domain_eqb dom a out))
    all_domains (Ok []).

Definition synthesize_decision (self : UniversalIntelligenceSynthesis)
    (decision : Decision) : M F SynthesisResult :=
  domain_analyses <~ lift (analyze_all decision) ;;
  weights <~ _calculate_context_weights self decision ;;
  synthesis <~ lift (_perform_synthesis domain_analyses weights) ;;
  let protocol := _generate_coordination_protocol decision domain_analyses synthesis in
  ret {| decision_synthesis := synthesis;
         coordination_protocol := protocol;
         confidence_metrics := _calculate_confidence_metrics domain_analyses |}.

(** ** class GlobalCoordinationNetwork *)

Record GlobalCoordinationNetwork : Type := {
  intelligence_engine : UniversalIntelligenceSynthesis
}.

Definition GlobalCoordinationNetwork_init : M F GlobalCoordinationNetwork :=
  e <~ UniversalIntelligenceSynthesis_init ;;
  ret {| intelligence_engine := e |}.

(** [self.intelligence_engine.synthesize_decision(decision)] looks the
    method up on the engine object when the call is made.  [EngineMethods]
    is what the facade needs of an engine; the methods of
    [UniversalIntelligenceSynthesis], the engine the constructor installs,
    are the instance declared below, and the one every call in this file
    resolves to unless another is named. *)
Class EngineMethods : Type := {
  synthesize_decision_method :
    UniversalIntelligenceSynthesis -> Decision -> M F SynthesisResult
}.

(** An optional argument is [None] when the caller leaves it out; the
    defaults of the signature are [None], ["personal"] and [0.3]. *)
Definition submit_decision {methods : EngineMethods} (self : GlobalCoordinationNetwork)
    (context : string) (stakeholders options : list string)
    (constraints : option (dict string Any)) (impact_scale : option string)
    (uncertainty_level : option F) : M F SynthesisResult :=
  let impact_scale := match impact_scale with Some s => s | None => "personal" end in
  let uncertainty_level :=
    match uncertainty_level with Some u => u | None => float_lit 3 10 end in
  let constraints := match constraints with Some c => c | None => [] end in
  let decision :=
    {| context := context;
       stakeholders := stakeholders;
       options := options;
       constraints := constraints;
       timeframe := 30;
       impact_scale := impact_scale;
       uncertainty_level := uncertainty_level |} in
  synthesize_decision_method (intelligence_engine self) decision.
End Model.

Arguments Any : clear implicits.
Arguments Decision : clear implicits.
Arguments DomainAnalysis : clear implicits.
Arguments Synthesis : clear implicits.
Arguments ConfidenceMetrics : clear implicits.
Arguments SynthesisResult : clear implicits.
Arguments UniversalIntelligenceSynthesis : clear implicits.
Arguments GlobalCoordinationNetwork : clear implicits.
Arguments EngineMethods : clear implicits.

(** The methods of the engine of the source. *)
#[global] Instance UniversalIntelligenceSynthesis_methods {F : Type} `{PyFloat F}
  : EngineMethods F :=
  {| synthesize_decision_method := synthesize_decision |}.

(** * Auxiliary definitions

    Pure counterparts of the stateful methods, the quantities the
    specification names, and sample inputs. *)

Section Auxiliary.
Context {F : Type} `{PyFloat F}.
Local Open Scope py_scope.

(** ** The stub analysis *)

(** The record [_game_theory_analysis] returns. *)
Definition stub_analysis (d : Decision F) : DomainAnalysis F :=
  {| domain := GAME_THEORY;
     insights := ["Nash equilibrium"%string; "Coalition stability"%string];
     predictions :=
       map (fun opt => (opt, fdiv (of_int 1) (of_int (Z.of_nat (List.length (options d))))))
           (options d);
     confidence := float_lit 85 100;
     interaction_effects := [(BEHAVIORAL_PSYCHOLOGY, float_lit 9 10)] |}.

(** The dictionary [synthesize_decision] builds from it. *)
Definition stub_analyses (d : Decision F) : dict Domain (DomainAnalysis F) :=
  map (fun dom => (dom, stub_analysis d)) all_domains.

(** ** Context weighting as a function of the base dictionary *)

(** [w = self.domain_weights.copy()] followed by the one rule. *)
Definition adjust_weights (d : Decision F) (base : dict Domain F) : result (dict Domain F) :=
  if (impact_scale d =? "global")%string
  then x <- dict_getitem Domain_eqb SYSTEMS_THINKING base ;;
       Ok (dict_set Domain_eqb SYSTEMS_THINKING (fmul x (float_lit 15 10)) base)
  else Ok base.

(** [{k: v / total for k, v in w.items()}] *)
Definition normalize_weights (w : dict Domain F) : result (dict Domain F) :=
  let total := py_sum (dict_values w) in
  fold_left
    (fun acc kv =>
       out <- acc ;;
       q <- py_div (snd kv) total ;;
       Ok (dict_set Domain_eqb (fst kv) q out))
    w (Ok []).

Definition context_weights (d : Decision F) (base : dict Domain F) : result (dict Domain F) :=
  w <- adjust_weights d base ;; normalize_weights w.

(** The whole pipeline as a function of the base-weight dictionary. *)
Definition synthesize_pure (decision : Decision F) (base : dict Domain F)
    : result (SynthesisResult F) :=
  domain_analyses <- analyze_all decision ;;
  weights <- context_weights decision base ;;
  synthesis <- _perform_synthesis domain_analyses weights ;;
  Ok {| decision_synthesis := synthesis;
        coordination_protocol :=
          _generate_coordination_protocol decision domain_analyses synthesis;
        confidence_metrics := _calculate_confidence_metrics domain_analyses |}.

(** Context weighting in the specification's words: start from the base
    weights, multiply the Systems-Thinking weight by 1.5 exactly when
    [impact_scale] is ["global"], then divide every weight by the sum of all
    weights. *)
Definition scaled_weight (d : Decision F) (kv : Domain * F) : F :=
  if (impact_scale d =? "global")%string && Domain_eqb (fst kv) SYSTEMS_THINKING
  then fmul (snd kv) (float_lit 15 10)
  else snd kv.

Definition scaled_weights (d : Decision F) : dict Domain F :=
  map (fun kv => (fst kv, scaled_weight d kv)) _initialize_domain_weights.

Definition spec_context_weights (d : Decision F) : dict Domain F :=
  let total := py_sum (dict_values (scaled_weights d)) in
  map (fun kv => (fst kv, fdiv (snd kv) total)) (scaled_weights d).

(** A dictionary divided by the sum of its values. *)
Definition normalized (w : dict Domain F) : dict Domain F :=
  map (fun kv => (fst kv, fdiv (snd kv) (py_sum (dict_values w)))) w.

(** The only two weight vectors a call can return. *)
Definition plain_weights : dict Domain F := normalized _initialize_domain_weights.
Definition global_weights : dict Domain F :=
  normalized
    (dict_set Domain_eqb SYSTEMS_THINKING
       (fmul (float_lit 13 100) (float_lit 15 10)) _initialize_domain_weights).

(** The two sums a call can divide by. *)
Definition plain_total : F := py_sum (dict_values _initialize_domain_weights).
Definition global_total : F :=
  py_sum (dict_values
            (dict_set Domain_eqb SYSTEMS_THINKING
               (fmul (float_lit 13 100) (float_lit 15 10)) _initialize_domain_weights)).

(** Neither sum is zero, so that normalization divides. *)
Definition nondegenerate_totals : Prop :=
  fis_zero plain_total = false /\ fis_zero global_total = false.

(** ** The reducer in the specification's words *)

(** One execution of [scores[opt] = scores.get(opt, 0) + t]. *)
Definition add_score (scores : dict string F) (c : string * F) : dict string F :=
  dict_set String.eqb (fst c)
    (fadd (dict_get_default String.eqb (fst c) (of_int 0) scores) (snd c))
    scores.

(** The weight the reducer reads for a domain ([0] stands for a missing
    key, where the source raises instead). *)
Definition weight_of (weights : dict Domain F) (dom : Domain) : F :=
  dict_get_default Domain_eqb dom (of_int 0) weights.

(** Every analysed domain has a weight. *)
Definition covers (weights : dict Domain F) (analyses : dict Domain (DomainAnalysis F)) : Prop :=
  forall dom, In dom (dict_keys analyses) -> In dom (dict_keys weights).

(** The contributions in the order the two loops meet them: for every
    domain's analysis, for every (option, probability) pair it reports,
    the option with [probability * weight[domain] * confidence]. *)
Definition contributions (analyses : dict Domain (DomainAnalysis F))
    (weights : dict Domain F) : list (string * F) :=
  flat_map
    (fun da =>
       map (fun op =>
              (fst op,
               fmul (fmul (snd op) (weight_of weights (fst da))) (confidence (snd da))))
           (predictions (snd da)))
    analyses.

(** What is added to the entry of [opt], in order. *)
Definition contributions_to (opt : string) (cs : list (string * F)) : list F :=
  map snd (filter (fun c => String.eqb (fst c) opt) cs).

(** The score of an option as the specification words it: start from 0 and
    add each of its contributions. *)
Definition spec_score (analyses : dict Domain (DomainAnalysis F))
    (weights : dict Domain F) (opt : string) : F :=
  fold_left fadd (contributions_to opt (contributions analyses weights)) (of_int 0).

(** ** Uniform scores *)

(** The dictionary that gives every key, in order, the value [v]. *)
Definition constant_dict {K : Type} (v : F) (keys : list K) : dict K F :=
  map (fun k => (k, v)) keys.

(** The running score after the domains [doms], from [s]. *)
Definition uniform_score (t : Domain -> F) (doms : list Domain) (s : F) : F :=
  fold_left (fun s dom => fadd s (t dom)) doms s.

(** What a domain adds to every option of [d] under the weights [W]. *)
Definition stub_term (d : Decision F) (W : dict Domain F) (dom : Domain) : F :=
  fmul (fmul (fdiv (of_int 1) (of_int (Z.of_nat (List.length (options d)))))
             (weight_of W dom))
       (float_lit 85 100).

(** The score every option of [d] ends with. *)
Definition stub_score (d : Decision F) (W : dict Domain F) : F :=
  uniform_score (stub_term d W) all_domains (of_int 0).

(** ** The facade *)

(** The Decision the facade is specified to hand to the pipeline: the
    caller's fields, the defaults for the optional ones, and the fixed
    [timeframe]. *)
Definition build_decision (context : string) (stakeholders options : list string)
    (constraints : option (dict string (Any F))) (impact_scale : option string)
    (uncertainty_level : option F) : Decision F :=
  {| context := context;
     stakeholders := stakeholders;
     options := options;
     constraints := match constraints with Some c => c | None => [] end;
     timeframe := 30;
     impact_scale := match impact_scale with Some s => s | None => "personal"%string end;
     uncertainty_level :=
       match uncertainty_level with Some u => u | None => float_lit 3 10 end |}.

(** ** Reachable stores *)

(** The stores a constructed network can be run in: after the constructor,
    and after any call of the facade or, as the benchmark does, of the
    pipeline. *)
Inductive reachable (net : GlobalCoordinationNetwork F) : store F -> Prop :=
| reach_init st0 st :
    GlobalCoordinationNetwork_init st0 = (Ok net, st) -> reachable net st
| reach_submit st context stakeholders options constraints impact_scale uncertainty_level :
    reachable net st ->
    reachable net
      (snd (submit_decision net context stakeholders options constraints
              impact_scale uncertainty_level st))
| reach_synthesize st decision :
    reachable net st ->
    reachable net (snd (synthesize_decision (intelligence_engine net) decision st)).

(** ** Sample inputs *)

(** The network [GlobalCoordinationNetwork()] builds in an empty store. *)
Definition sample_engine : UniversalIntelligenceSynthesis F :=
  {| domain_weights := 0%nat;
     synthesis_patterns := _load_synthesis_patterns;
     coordination_matrix := repeat (repeat (of_int 0) 10) 10 |}.

Definition sample_network : GlobalCoordinationNetwork F :=
  {| intelligence_engine := sample_engine |}.

Definition sample_store : store F := [_initialize_domain_weights].

(** Ten analyses that differ: one domain reports two options, the others
    one, and one domain has confidence 0. *)
Definition sample_analyses : dict Domain (DomainAnalysis F) :=
  map (fun dom =>
         (dom,
          {| domain := dom;
             insights := [];
             predictions :=
               if Domain_eqb dom ETHICS
               then [("A"%string, float_lit 1 2); ("B"%string, float_lit 1 4)]
               else [("B"%string, float_lit 1 2)];
             confidence := if Domain_eqb dom PHYSICS then of_int 0 else of_int 1;
             interaction_effects := [] |}))
      all_domains.

(** The decision of the benchmark, with two stakeholders. *)
Definition sample_decision : Decision F :=
  {| context := "Public-Goods Game";
     stakeholders := ["player_0"%string; "player_1"%string];
     options := ["contribute 0"%string; "contribute full"%string];
     constraints := [];
     timeframe := 1;
     impact_scale := "global";
     uncertainty_level := float_lit 2 10 |}.
End Auxiliary.

Module RealSpec.
Import RealArith.
Local Open Scope R_scope.

(** The arithmetic mean of a list of reals. *)
Definition Rsum (xs : list R) : R := fold_right Rplus 0 xs.
Definition arithmetic_mean (xs : list R) : R := Rsum xs / INR (List.length xs).

(** The population standard deviation: the square root of the mean squared
    deviation from the mean, the sum divided by N (not by N - 1). *)
Definition population_variance (xs : list R) : R :=
  Rsum (map (fun x => (x - arithmetic_mean xs) * (x - arithmetic_mean xs)) xs)
  / INR (List.length xs).

Definition population_standard_deviation (xs : list R) : R :=
  sqrt (population_variance xs).
End RealSpec.

Module B64Spec.
Import Binary64.

(** The exact rational sum of a list of doubles. *)
Definition b64_exact_sum (xs : list spec_float) : Q :=
  fold_right Qplus 0%Q (map b64_to_Q xs).

Definition tolerance : Q := 1 # 1000000000.

Definition within_tolerance (x y : Q) : Prop := (Qabs (x - y) <= tolerance)%Q.

(** What a run recommends, and the labels it scores. *)
Definition recommendation (outcome : result (SynthesisResult spec_float)) : option string :=
  match outcome with
  | Ok r => Some (recommended_option (decision_synthesis r))
  | Raise _ => None
  end.

Definition score_labels (outcome : result (SynthesisResult spec_float)) : list string :=
  match outcome with
  | Ok r => dict_keys (option_scores (decision_synthesis r))
  | Raise _ => []
  end.

(** The score of C3 in exact arithmetic, 0.85 / n, and what it is for a
    double to agree with it up to rounding: a finite number that differs
    from it by at most one part in 10^15. *)
Definition ideal_score (n : nat) : Q := (17 # 20) / inject_Z (Z.of_nat n).

Definition rounding_tolerance : Q := 1 # 1000000000000000.

Definition close_to_ideal_bool (x : spec_float) (n : nat) : bool :=
  b64_is_finite x &&
  Qle_bool (Qabs (b64_to_Q x - ideal_score n)) (rounding_tolerance * ideal_score n).

Definition close_to_ideal (x : spec_float) (n : nat) : Prop :=
  b64_is_finite x = true /\
  (Qabs (b64_to_Q x - ideal_score n) <= rounding_tolerance * ideal_score n)%Q.

(** The largest number of options the rounding of the score is checked
    for. *)
Definition MAX_CHECKED_OPTIONS : nat := 1000.
End B64Spec.

(** * Further definitions

    The benchmark of [tests/stress_1M.py] and the quantities the further
    properties below are stated with. *)

Section Further.
Context {F : Type} `{PyFloat F}.
Local Open Scope py_scope.

(** The labels of [l] that are not in [seen], each at its first
    occurrence. *)
Fixpoint fresh_labels (seen l : list string) : list string :=
  match l with
  | [] => []
  | x :: tl =>
      if existsb (String.eqb x) seen
      then fresh_labels seen tl
      else x :: fresh_labels (seen ++ [x]) tl
  end.

Definition first_occurrences (l : list string) : list string := fresh_labels [] l.

(** Some analysed domain has no weight. *)
Definition missing_weight (weights : dict Domain F)
    (analyses : dict Domain (DomainAnalysis F)) : Prop :=
  exists dom, In dom (dict_keys analyses) /\ ~ In dom (dict_keys weights).

(** ** The order of the scores *)

(** What [max] needs of [>]: no value is above itself, and [>] is
    transitive. *)
Definition strict_order : Prop :=
  (forall x : F, fgtb x x = false) /\
  (forall x y z : F, fgtb x y = true -> fgtb y z = true -> fgtb x z = true).

(** A value that compares as a number does: of two values in order it is
    above the smaller or below the larger.  Every real is; in binary64
    every value but NaN is. *)
Definition comparable (y : F) : Prop :=
  forall x z : F, fgtb z x = true -> fgtb y x = true \/ fgtb z y = true.

(** ** NumPy's figures for ten numbers, written out *)

(** The eight running sums are the first eight numbers; they are added in
    pairs and the ninth and tenth number are added to the result. *)
Definition sum_of_ten (c0 c1 c2 c3 c4 c5 c6 c7 c8 c9 : F) : F :=
  fadd (fadd (fadd (fadd (fadd c0 c1) (fadd c2 c3)) (fadd (fadd c4 c5) (fadd c6 c7))) c8) c9.

Definition mean_of_ten (c0 c1 c2 c3 c4 c5 c6 c7 c8 c9 : F) : F :=
  fdiv (sum_of_ten c0 c1 c2 c3 c4 c5 c6 c7 c8 c9) (of_int 10).

Definition squared_deviation (m x : F) : F := fmul (fsub x m) (fsub x m).

(** The population standard deviation: the squared deviations are divided
    by 10, not by 9. *)
Definition deviation_of_ten (c0 c1 c2 c3 c4 c5 c6 c7 c8 c9 : F) : F :=
  let m := mean_of_ten c0 c1 c2 c3 c4 c5 c6 c7 c8 c9 in
  fsqrt (mean_of_ten (squared_deviation m c0) (squared_deviation m c1)
           (squared_deviation m c2) (squared_deviation m c3)
           (squared_deviation m c4) (squared_deviation m c5)
           (squared_deviation m c6) (squared_deviation m c7)
           (squared_deviation m c8) (squared_deviation m c9)).

(** ** The scores of the stub *)

(** The score every one of [n] distinct options ends with under the
    weights [W]: from 0, every domain in turn adds [(1 / n) * W[dom] * 0.85]. *)
Definition stub_score_with (W : dict Domain F) (n : nat) : F :=
  uniform_score
    (fun dom =>
       fmul (fmul (fdiv (of_int 1) (of_int (Z.of_nat n))) (weight_of W dom))
            (float_lit 85 100))
    all_domains (of_int 0).

(** The score of a label listed [c] times: every domain in turn adds its
    term [c] times. *)
Definition repeated_score (t : Domain -> F) (c : nat) : F :=
  fold_left fadd (flat_map (fun dom => repeat (t dom) c) all_domains) (of_int 0).

(** Ten analyses that all report the confidence [c]. *)
Definition equal_confidence_analyses (c : F) : dict Domain (DomainAnalysis F) :=
  map (fun dom =>
         (dom,
          {| domain := dom;
             insights := [];
             predictions := [("A"%string, float_lit 1 2)];
             confidence := c;
             interaction_effects := [] |}))
      all_domains.

(** ** tests/stress_1M.py *)

Definition N_INSTANCES : nat := 1000.
Definition PLAYERS_PER_INSTANCE : nat := 1000.

(** The Decision an iteration builds.  The context string and the player
    names are formatted text and [mpcr] is a random draw: the three are
    inputs here. *)
Definition benchmark_decision (context : string) (stakeholders : list string)
    (mpcr : F) : Decision F :=
  {| context := context;
     stakeholders := stakeholders;
     options := ["contribute 0"%string; "contribute full"%string];
     constraints := [("mpcr"%string, AnyFloat mpcr)];
     timeframe := 1;
     impact_scale := "global";
     uncertainty_level := float_lit 2 10 |}.

(** The body of the loop without the clock: the pipeline is called on the
    engine and the score of ["contribute full"] is appended. *)
Definition stress_step (net : GlobalCoordinationNetwork F) (adoptions : list F)
    (draw : string * list string * F) : M F (list F) :=
  let d := benchmark_decision (fst (fst draw)) (snd (fst draw)) (snd draw) in
  res <~ synthesize_decision (intelligence_engine net) d ;;
  let score_full :=
    dict_get_default String.eqb "contribute full"%string (of_int 0)
      (option_scores (decision_synthesis res)) in
  ret (adoptions ++ [score_full]).

Fixpoint stress_loop (net : GlobalCoordinationNetwork F) (adoptions : list F)
    (draws : list (string * list string * F)) : M F (list F) :=
  match draws with
  | [] => ret adoptions
  | draw :: tl =>
      adoptions' <~ stress_step net adoptions draw ;;
      stress_loop net adoptions' tl
  end.

(** [stress()] up to the assertions: one network, one iteration per draw. *)
Definition stress_adoptions (draws : list (string * list string * F)) : M F (list F) :=
  net <~ GlobalCoordinationNetwork_init ;;
  stress_loop net [] draws.

(** [sum(adoptions) / len(adoptions)] *)
Definition adoption_mean (adoptions : list F) : result F :=
  py_div (py_sum adoptions) (of_int (Z.of_nat (List.length adoptions))).

(** ** More sample inputs *)

(** A store whose only dictionary has the one key [GAME_THEORY]. *)
Definition single_weight_store (x : F) : store F := [[(GAME_THEORY, x)]].

(** A store whose only dictionary has two keys, with weights 1 and 3. *)
Definition two_weight_store : store F :=
  [[(GAME_THEORY, of_int 1); (ETHICS, of_int 3)]].

(** A decision with a repeated label and the default impact scale. *)
Definition repeated_label_decision : Decision F :=
  build_decision "Choice" [] ["A"%string; "B"%string; "B"%string] None None None.

(** The score both options of a benchmark decision end with. *)
Definition benchmark_score : F :=
  stub_score (benchmark_decision "" [] (of_int 0))
    (spec_context_weights (benchmark_decision "" [] (of_int 0))).
End Further.

(** * Verification *)

(** ** Dictionaries *)

Section DictFacts.
Variables K V : Type.
Variable eqb : K -> K -> bool.
Hypothesis eqb_spec : forall a b, reflect (a = b) (eqb a b).

Lemma eqb_refl' (a : K) : eqb a a = true.
Proof. destruct (eqb_spec a a); congruence. Qed.

Lemma eqb_neq' (a b : K) : a <> b -> eqb a b = false.
Proof. destruct (eqb_spec a b); congruence. Qed.

Lemma dict_get_set_same (k : K) (v : V) (d : dict K V) :
  dict_get eqb k (dict_set eqb k v d) = Some v.
Proof.
  induction d as [|[k' v'] tl IH]; simpl.
  - now rewrite eqb_refl'.
  - destruct (eqb_spec k k') as [->|Hne]; simpl.
    + now rewrite eqb_refl'.
    + now rewrite (eqb_neq' Hne).
Qed.

Lemma dict_get_set_other (k k0 : K) (v : V) (d : dict K V) :
  k0 <> k -> dict_get eqb k0 (dict_set eqb k v d) = dict_get eqb k0 d.
Proof.
  intros Hne. induction d as [|[k' v'] tl IH]; simpl.
  - now rewrite (eqb_neq' Hne).
  - destruct (eqb_spec k k') as [->|Hk]; simpl.
    + now rewrite (eqb_neq' Hne).
    + now rewrite IH.
Qed.

Lemma dict_get_None (k : K) (d : dict K V) :
  dict_get eqb k d = None <-> ~ In k (dict_keys d).
Proof.
  induction d as [|[k' v'] tl IH]; simpl.
  - tauto.
  - destruct (eqb_spec k k') as [->|Hk].
    + split; [discriminate | intros Hn; exfalso; apply Hn; now left].
    + rewrite IH. split.
      * intros Hn [Heq|Hin]; [congruence | tauto].
      * tauto.
Qed.

Lemma dict_get_In (k : K) (v : V) (d : dict K V) :
  dict_get eqb k d = Some v -> In (k, v) d.
Proof.
  induction d as [|[k' v'] tl IH]; simpl; [discriminate|].
  destruct (eqb_spec k k') as [->|Hk].
  - intros [= ->]. now left.
  - intros Hg. right. now apply IH.
Qed.

Lemma dict_In_get (k : K) (v : V) (d : dict K V) :
  NoDup (dict_keys d) -> In (k, v) d -> dict_get eqb k d = Some v.
Proof.
  induction d as [|[k' v'] tl IH]; simpl; [tauto|].
  intros Hnd [Heq|Hin].
  - injection Heq as Hk Hv. subst k' v'. now rewrite eqb_refl'.
  - inversion Hnd as [|? ? Hnotin Hnd']; subst.
    destruct (eqb_spec k k') as [->|Hk].
    + exfalso. apply Hnotin. change (In (fst (k', v)) (map fst tl)). now apply in_map.
    + now apply IH.
Qed.

(** Assignment overwrites a key in place or appends a new one. *)
Lemma dict_set_keys_old (k : K) (v : V) (d : dict K V) :
  In k (dict_keys d) -> dict_keys (dict_set eqb k v d) = dict_keys d.
Proof.
  induction d as [|[k' v'] tl IH]; simpl; [tauto|].
  intros Hin. destruct (eqb_spec k k') as [->|Hk]; simpl; [reflexivity|].
  f_equal. apply IH. destruct Hin; congruence.
Qed.

Lemma dict_set_keys_new (k : K) (v : V) (d : dict K V) :
  ~ In k (dict_keys d) -> dict_keys (dict_set eqb k v d) = dict_keys d ++ [k].
Proof.
  induction d as [|[k' v'] tl IH]; simpl; [reflexivity|].
  intros Hnin. destruct (eqb_spec k k') as [->|Hk]; simpl; [tauto|].
  f_equal. apply IH. tauto.
Qed.

Lemma dict_set_NoDup (k : K) (v : V) (d : dict K V) :
  NoDup (dict_keys d) -> NoDup (dict_keys (dict_set eqb k v d)).
Proof.
  intros Hnd.
  destruct (in_dec (fun a b => reflect_dec _ _ (eqb_spec a b)) k (dict_keys d))
    as [Hin|Hnin].
  - now rewrite dict_set_keys_old.
  - rewrite dict_set_keys_new by assumption.
    apply NoDup_app; [assumption | repeat constructor; simpl; tauto |].
    intros a Ha [<-|[]]. contradiction.
Qed.
Lemma dict_get_app_skip (k : K) (d1 d2 : dict K V) :
~ In k (dict_keys d1) -> dict_get eqb k (d1 ++ d2) = dict_get eqb k d2.
Proof.
induction d1 as [|[k' v'] tl IH]; simpl; [reflexivity|].
intros Hnin. destruct (eqb_spec k k') as [->|Hk]; [tauto|].
apply IH. tauto.
Qed.

Lemma dict_set_app_skip (k : K) (v : V) (d1 d2 : dict K V) :
~ In k (dict_keys d1) ->
dict_set eqb k v (d1 ++ d2) = d1 ++ dict_set eqb k v d2.
Proof.
induction d1 as [|[k' v'] tl IH]; simpl; [reflexivity|].
intros Hnin. destruct (eqb_spec k k') as [->|Hk]; [tauto|].
f_equal. apply IH. tauto.
Qed.
End DictFacts.

Arguments dict_get_set_same {K V eqb} eqb_spec k v d.
Arguments dict_get_set_other {K V eqb} eqb_spec {k k0} v d _.
Arguments dict_get_None {K V eqb} eqb_spec k d.
Arguments dict_get_In {K V eqb} eqb_spec k {v} d _.
Arguments dict_In_get {K V eqb} eqb_spec k v d _ _.
Arguments dict_set_keys_old {K V eqb} eqb_spec k v d _.
Arguments dict_set_keys_new {K V eqb} eqb_spec k v d _.
Arguments dict_set_NoDup {K V eqb} eqb_spec k v d _.
Arguments dict_get_app_skip {K V eqb} eqb_spec k d1 d2 _.
Arguments dict_set_app_skip {K V eqb} eqb_spec k v d1 d2 _.

Lemma Domain_eqb_spec (a b : Domain) : reflect (a = b) (Domain_eqb a b).
Proof. unfold Domain_eqb. destruct (Domain_eq_dec a b); now constructor. Qed.

Lemma NoDup_all_domains : NoDup all_domains.
Proof. unfold all_domains. repeat constructor; simpl; intuition discriminate. Qed.

Lemma all_domains_complete (dom : Domain) : In dom all_domains.
Proof. destruct dom; simpl; tauto. Qed.

(** ** The store *)

Section StoreFacts.
Variable F : Type.
Implicit Types (st : store F) (d : dict Domain F).

Lemma store_get_old r st d :
  (r < List.length st)%nat -> store_get r (st ++ [d]) = store_get r st.
Proof. intros Hr. unfold store_get. now apply app_nth1. Qed.

Lemma store_get_new st d : store_get (List.length st) (st ++ [d]) = d.
Proof. unfold store_get. apply nth_middle. Qed.

Lemma store_set_new st d d' :
  store_set (List.length st) d' (st ++ [d]) = st ++ [d'].
Proof. induction st as [|c tl IH]; simpl; [reflexivity | now rewrite IH]. Qed.
End StoreFacts.

(** ** NumPy's summation *)

Section NumPyFacts.
Context {F : Type} `{PyFloat F}.

Lemma split_point (n : nat) :
  (PW_BLOCKSIZE < n)%nat -> (0 < n / 2 - (n / 2) mod 8 < n)%nat.
Proof.
  unfold PW_BLOCKSIZE. intros Hn.
  pose proof (Nat.div_mod_eq n 2) as H2.
  pose proof (Nat.mod_upper_bound n 2 ltac:(lia)) as H2'.
  pose proof (Nat.mod_upper_bound (n / 2) 8 ltac:(lia)) as H8.
  lia.
Qed.

(** Any fuel that is at least the length of the list gives the same sum. *)
Lemma pairwise_sum_rec_fuel (fuel : nat) :
  forall (fuel' : nat) (xs : list F),
    (List.length xs <= fuel)%nat -> (List.length xs <= fuel')%nat ->
    pairwise_sum_rec fuel xs = pairwise_sum_rec fuel' xs.
Proof.
  induction fuel as [|fuel IH]; intros fuel' xs Hlen Hlen'.
  - destruct xs; [|simpl in Hlen; lia]. now destruct fuel'.
  - destruct fuel' as [|fuel'].
    + destruct xs; [reflexivity | simpl in Hlen'; lia].
    + cbn [pairwise_sum_rec].
      destruct (List.length xs <=? PW_BLOCKSIZE)%nat eqn:Hsmall; [reflexivity|].
      apply Nat.leb_gt in Hsmall. pose proof (split_point Hsmall) as Hsplit.
      f_equal; apply IH; rewrite ?length_firstn, ?length_skipn; lia.
Qed.

(** The fuel never runs out: [pairwise_sum] satisfies the equation of
    NumPy's recursive function. *)
Lemma pairwise_sum_unfold (xs : list F) :
  pairwise_sum xs =
  if (List.length xs <=? PW_BLOCKSIZE)%nat then block_sum xs
  else
    let n2 := (List.length xs / 2 - (List.length xs / 2) mod 8)%nat in
    fadd (pairwise_sum (firstn n2 xs)) (pairwise_sum (skipn n2 xs)).
Proof.
  unfold pairwise_sum at 1.
  destruct (List.length xs) as [|n] eqn:Hn.
  - reflexivity.
  - cbn [pairwise_sum_rec]. rewrite Hn.
    destruct (S n <=? PW_BLOCKSIZE)%nat eqn:Hsmall; [reflexivity|].
    apply Nat.leb_gt in Hsmall. pose proof (split_point Hsmall) as Hsplit.
    cbv zeta. unfold pairwise_sum.
    f_equal; apply pairwise_sum_rec_fuel;
      rewrite ?length_firstn, ?length_skipn; lia.
Qed.

(** Ten numbers: the mean and the deviation written out. *)
Lemma np_figures_of_ten (xs : list F) :
  List.length xs = 10%nat ->
  exists c0 c1 c2 c3 c4 c5 c6 c7 c8 c9,
    xs = [c0; c1; c2; c3; c4; c5; c6; c7; c8; c9] /\
    np_mean xs = mean_of_ten c0 c1 c2 c3 c4 c5 c6 c7 c8 c9 /\
    np_std xs = deviation_of_ten c0 c1 c2 c3 c4 c5 c6 c7 c8 c9.
Proof.
  intros Hlen.
  destruct xs as [|c0 [|c1 [|c2 [|c3 [|c4 [|c5 [|c6 [|c7 [|c8 [|c9 [|c10 tl]]]]]]]]]]];
    try discriminate Hlen.
  exists c0, c1, c2, c3, c4, c5, c6, c7, c8, c9. repeat split.
Qed.

Lemma catalog_confidences (analyses : dict Domain (DomainAnalysis F)) :
  Permutation (dict_keys analyses) all_domains ->
  List.length (map confidence (dict_values analyses)) = 10%nat.
Proof.
  intros Hp. apply Permutation_length in Hp.
  unfold dict_keys, dict_values in *. now rewrite !length_map in *.
Qed.
End NumPyFacts.

(** ** What one call computes

    The stateful methods are related to pure functions of the dictionary
    that [self.domain_weights] refers to. *)

Section EngineFacts.
Context {F : Type} `{PyFloat F}.
Local Open Scope py_scope.

Lemma uniform_predictions_ok (n : Z) (opts : list string) :
  n <> 0%Z ->
  uniform_predictions n opts = Ok (map (fun opt => (opt, fdiv (of_int 1) (of_int n))) opts).
Proof.
  intros Hn. induction opts as [|o tl IH]; simpl; [reflexivity|].
  unfold int_truediv. apply Z.eqb_neq in Hn. rewrite Hn. simpl.
  now rewrite IH.
Qed.

(** The division [1 / len(d.options)] is evaluated once per option, hence
    never with an empty list: the analysis never raises. *)
Lemma _game_theory_analysis_total (d : Decision F) :
  _game_theory_analysis d = Ok (stub_analysis d).
Proof.
  unfold _game_theory_analysis, stub_analysis.
  destruct (options d) as [|o tl] eqn:E.
  - reflexivity.
  - rewrite uniform_predictions_ok by (simpl; lia). reflexivity.
Qed.

Lemma analyze_all_total (d : Decision F) :
  analyze_all d = Ok (map (fun dom => (dom, stub_analysis d)) all_domains).
Proof.
  unfold analyze_all, analyze_domain. rewrite _game_theory_analysis_total.
  reflexivity.
Qed.

Lemma _calculate_context_weights_run self (d : Decision F) (st : store F) :
  _calculate_context_weights self d st =
  (context_weights d (store_get (domain_weights self) st),
   st ++ [match adjust_weights d (store_get (domain_weights self) st) with
          | Ok w => w
          | Raise _ => store_get (domain_weights self) st
          end]).
Proof.
  unfold _calculate_context_weights, context_weights, adjust_weights,
    normalize_weights, bind, dict_copy, new_dict, getitem, setitem, values,
    items, lift, ret.
  destruct (impact_scale d =? "global")%string; simpl.
  - rewrite store_get_new.
    destruct (dict_getitem Domain_eqb SYSTEMS_THINKING
                (store_get (domain_weights self) st)) as [x|e]; simpl.
    + rewrite store_set_new, store_get_new. reflexivity.
    + reflexivity.
  - rewrite store_get_new. reflexivity.
Qed.

Lemma synthesize_decision_run self (decision : Decision F) (st : store F) :
  synthesize_decision self decision st =
  (synthesize_pure decision (store_get (domain_weights self) st),
   st ++ [match adjust_weights decision (store_get (domain_weights self) st) with
          | Ok w => w
          | Raise _ => store_get (domain_weights self) st
          end]).
Proof.
  unfold synthesize_decision, synthesize_pure, bind, lift, ret.
  rewrite analyze_all_total. simpl.
  rewrite _calculate_context_weights_run.
  destruct (context_weights decision (store_get (domain_weights self) st)) as [w|e];
    simpl; [|reflexivity].
  destruct (_perform_synthesis _ w) as [s|e]; reflexivity.
Qed.

(** A call leaves every dictionary that existed before it as it was. *)
Lemma synthesize_decision_frame self (decision : Decision F) (st : store F) (r : ref) :
  (r < List.length st)%nat ->
  store_get r (snd (synthesize_decision self decision st)) = store_get r st.
Proof.
  intros Hr. rewrite synthesize_decision_run. simpl. now apply store_get_old.
Qed.

(** The constructor puts the base weights in a new cell. *)
Lemma GlobalCoordinationNetwork_init_run (st : store F) :
  exists net,
    GlobalCoordinationNetwork_init st = (Ok net, st ++ [_initialize_domain_weights]) /\
    domain_weights (intelligence_engine net) = List.length st.
Proof. eexists. split; reflexivity. Qed.

(** With the engine of the source, the facade is the pipeline run on the
    Decision it builds. *)
Lemma submit_decision_run (net : GlobalCoordinationNetwork F)
    (context : string) (stakeholders options : list string)
    (constraints : option (dict string (Any F))) (impact_scale : option string)
    (uncertainty_level : option F) :
  submit_decision net context stakeholders options constraints impact_scale
    uncertainty_level =
  synthesize_decision (intelligence_engine net)
    (build_decision context stakeholders options constraints impact_scale
       uncertainty_level).
Proof. reflexivity. Qed.
End EngineFacts.

(** ** The reducer: accumulation *)

Section ScoreFacts.
Context {F : Type} `{PyFloat F}.
Local Open Scope py_scope.

Local Abbreviation sget := (dict_get String.eqb).

Lemma accumulate_predictions_fold (w c : F) (preds : list (string * F))
    (scores : dict string F) :
  accumulate_predictions w c preds scores =
  fold_left add_score
    (map (fun op => (fst op, fmul (fmul (snd op) w) c)) preds) scores.
Proof.
  unfold accumulate_predictions. revert scores.
  induction preds as [|op tl IH]; intros scores; simpl; [reflexivity|].
  now rewrite IH.
Qed.

Lemma accumulate_scores_fold (analyses : dict Domain (DomainAnalysis F))
    (weights : dict Domain F) :
  covers weights analyses ->
  accumulate_scores analyses weights =
  Ok (fold_left add_score (contributions analyses weights) []).
Proof.
  unfold accumulate_scores, contributions. generalize (@nil (string * F)) as init.
  induction analyses as [|[dom a] tl IH]; intros init Hcov; simpl; [reflexivity|].
  unfold dict_getitem, weight_of, dict_get_default.
  destruct (dict_get Domain_eqb dom weights) as [w|] eqn:Hw.
  - simpl. rewrite fold_left_app, <- accumulate_predictions_fold.
    apply IH. intros d Hd. apply Hcov. simpl. now right.
  - exfalso. apply (dict_get_None Domain_eqb_spec) in Hw.
    apply Hw, Hcov. simpl. now left.
Qed.

Lemma add_score_get (opt : string) (cs : list (string * F)) (init : dict string F) :
  sget opt (fold_left add_score cs init) =
  match contributions_to opt cs with
  | [] => sget opt init
  | ts => Some (fold_left fadd ts (dict_get_default String.eqb opt (of_int 0) init))
  end.
Proof.
  revert init. induction cs as [|[o t] tl IH]; intros init; simpl; [reflexivity|].
  rewrite IH. unfold contributions_to. simpl.
  destruct (String.eqb_spec o opt) as [->|Hne]; simpl.
  - unfold add_score, dict_get_default; simpl.
    rewrite (dict_get_set_same String.eqb_spec).
    now destruct (map snd (filter _ tl)).
  - unfold add_score, dict_get_default; simpl.
    rewrite (dict_get_set_other String.eqb_spec) by congruence.
    reflexivity.
Qed.

Lemma add_score_NoDup (cs : list (string * F)) (init : dict string F) :
  NoDup (dict_keys init) -> NoDup (dict_keys (fold_left add_score cs init)).
Proof.
  revert init. induction cs as [|c tl IH]; intros init Hnd; simpl; [assumption|].
  apply IH. unfold add_score. now apply (dict_set_NoDup String.eqb_spec).
Qed.

Lemma contributions_to_nil (opt : string) (cs : list (string * F)) :
  contributions_to opt cs = [] <-> ~ In opt (map fst cs).
Proof.
  unfold contributions_to. induction cs as [|[o t] tl IH]; simpl; [tauto|].
  destruct (String.eqb_spec o opt) as [->|Hne]; simpl.
  - split; [discriminate | tauto].
  - rewrite IH. tauto.
Qed.

Lemma add_score_nonempty (cs : list (string * F)) (init : dict string F) :
  cs <> [] -> fold_left add_score cs init <> [].
Proof.
  destruct cs as [|[o t] tl]; [congruence|]. intros _ Hnil.
  pose proof (add_score_get o ((o, t) :: tl) init) as Hg.
  rewrite Hnil in Hg. unfold contributions_to in Hg. simpl in Hg.
  rewrite String.eqb_refl in Hg. simpl in Hg. discriminate.
Qed.

(** ** The reducer: the maximum *)

Section Max.
Hypothesis gt_irrefl : forall x, fgtb x x = false.
Hypothesis gt_trans :
  forall x y z, fgtb x y = true -> fgtb y z = true -> fgtb x z = true.

Lemma max_loop_inv (best : string * F) (rest : dict string F) :
  exists v,
    In (max_loop best rest, v) (best :: rest) /\
    (v = snd best \/ fgtb v (snd best) = true) /\
    forall kv, In kv rest -> fgtb (snd kv) v = false.
Proof.
  revert best. induction rest as [|kv tl IH]; intros best; simpl.
  - exists (snd best). destruct best; simpl. intuition.
  - destruct (fgtb (snd kv) (snd best)) eqn:Hgt.
    + destruct (IH kv) as (v & Hin & Hge & Hall). exists v. split; [|split].
      * simpl in Hin. tauto.
      * right. destruct Hge as [->|Hge]; [assumption | eauto].
      * intros x [<-|Hx]; [|now apply Hall].
        destruct Hge as [->|Hge]; [apply gt_irrefl|].
        destruct (fgtb (snd kv) v) eqn:E; [|reflexivity].
        rewrite <- (gt_irrefl v). symmetry. eauto.
    + destruct (IH best) as (v & Hin & Hge & Hall). exists v. split; [|split].
      * simpl in Hin |- *. tauto.
      * assumption.
      * intros x [<-|Hx]; [|now apply Hall].
        destruct Hge as [->|Hge]; [assumption|].
        destruct (fgtb (snd kv) v) eqn:E; [|reflexivity].
        rewrite <- Hgt. symmetry. eauto.
Qed.

(** [max] returns a key of the dictionary whose value no value exceeds. *)
Lemma py_max_key_spec (scores : dict string F) :
  match py_max_key scores with
  | Ok k =>
      exists v, In (k, v) scores /\
                forall k' v', In (k', v') scores -> fgtb v' v = false
  | Raise e => scores = [] /\ e = ValueError
  end.
Proof.
  destruct scores as [|best rest]; simpl; [tauto|].
  destruct (max_loop_inv best rest) as (v & Hin & Hge & Hall).
  exists v. split; [assumption|].
  intros k' v' [Heq|Hin'].
  - subst best. simpl in Hge.
    destruct Hge as [->|Hge]; [apply gt_irrefl|].
    destruct (fgtb v' v) eqn:E; [|reflexivity].
    rewrite <- (gt_irrefl v). symmetry. eauto.
  - apply (Hall (k', v') Hin').
Qed.
End Max.

(** [max] keeps the first of the largest values, when the values compare
    as numbers do. *)
Lemma max_loop_first (best : string * F) (rest : dict string F) :
  strict_order ->
  (forall kv, In kv rest -> comparable (snd kv)) ->
  exists l1 v l2,
    best :: rest = l1 ++ (max_loop best rest, v) :: l2 /\
    (forall kv, In kv l1 -> fgtb v (snd kv) = true) /\
    (forall kv, In kv l2 -> fgtb (snd kv) v = false).
Proof.
  intros [Hirr Htrans]. revert best.
  induction rest as [|kv tl IH]; intros best Hcmp.
  - exists [], (snd best), []. simpl. destruct best. repeat split; intros kv [].
  - assert (Htl : forall x, In x tl -> comparable (snd x))
      by (intros x Hx; apply Hcmp; now right).
    cbn [max_loop]. destruct (fgtb (snd kv) (snd best)) eqn:Hgt.
    + destruct (IH kv Htl) as (l1 & v & l2 & Heq & H1 & H2).
      exists (best :: l1), v, l2. split; [simpl; now rewrite Heq|]. split; [|assumption].
      assert (Hb : fgtb v (snd best) = true).
      { destruct l1 as [|x l1']; simpl in Heq; injection Heq as Hx _.
        - rewrite Hx in Hgt. exact Hgt.
        - apply Htrans with (y := snd kv); [|exact Hgt].
          apply H1. left. now symmetry. }
      intros x [<-|Hx]; [exact Hb | now apply H1].
    + destruct (IH best Htl) as (l1 & v & l2 & Heq & H1 & H2).
      destruct l1 as [|x l1']; simpl in Heq; injection Heq as Hbest Htail.
      * exists [], v, (kv :: l2). split; [simpl; now rewrite <- Hbest, Htail|].
        split; [intros x []|].
        intros x [<-|Hx]; [|now apply H2].
        rewrite Hbest in Hgt. exact Hgt.
      * exists (best :: kv :: l1'), v, l2.
        split; [simpl; do 2 f_equal; exact Htail|]. split; [|assumption].
        assert (Hb : fgtb v (snd best) = true) by (apply H1; left; now symmetry).
        intros y [<-|[<-|Hy]]; [exact Hb | | apply H1; now right].
        destruct (Hcmp kv (or_introl eq_refl) (snd best) v Hb) as [Habove|Hbelow];
          [congruence | exact Hbelow].
Qed.
End ScoreFacts.

(** ** Uniform analyses

    When every analysis reports the same probability for every option, the
    score dictionary lists the options in their order, all with one value. *)

Section UniformFacts.
Context {F : Type} `{PyFloat F}.
Local Open Scope py_scope.

Lemma constant_dict_keys {K : Type} (v : F) (keys : list K) :
  dict_keys (constant_dict v keys) = keys.
Proof.
  unfold dict_keys, constant_dict. rewrite map_map. simpl. apply map_id.
Qed.

Lemma constant_dict_app {K : Type} (v : F) (l1 l2 : list K) :
  constant_dict v (l1 ++ l2) = constant_dict v l1 ++ constant_dict v l2.
Proof. apply map_app. Qed.

Lemma NoDup_app_head {A : Type} (l1 l2 : list A) (a : A) :
  NoDup (l1 ++ a :: l2) -> ~ In a l1 /\ NoDup ((l1 ++ [a]) ++ l2).
Proof.
  intros Hnd. split.
  - apply NoDup_remove_2 in Hnd. intros Hin. apply Hnd. apply in_or_app. now left.
  - now rewrite <- app_assoc.
Qed.

(** A later domain updates every entry in place. *)
Lemma add_score_in_place (t s : F) (todo done : list string) :
  NoDup (done ++ todo) ->
  fold_left add_score (constant_dict t todo)
    (constant_dict (fadd s t) done ++ constant_dict s todo) =
  constant_dict (fadd s t) (done ++ todo).
Proof.
  revert done. induction todo as [|o tl IH]; intros done Hnd; simpl.
  - now rewrite !app_nil_r.
  - destruct (NoDup_app_head _ _ _ Hnd) as [Hnin Hnd'].
    unfold add_score at 2. simpl. unfold dict_get_default.
    rewrite (dict_get_app_skip String.eqb_spec)
      by (now rewrite constant_dict_keys).
    rewrite (dict_set_app_skip String.eqb_spec)
      by (now rewrite constant_dict_keys).
    simpl. rewrite String.eqb_refl.
    specialize (IH (done ++ [o]) Hnd').
    rewrite constant_dict_app in IH. simpl in IH.
    rewrite <- app_assoc in IH. simpl in IH. rewrite IH.
    now rewrite <- app_assoc.
Qed.

(** The first domain appends the options in order. *)
Lemma add_score_fresh (t : F) (todo done : list string) :
  NoDup (done ++ todo) ->
  fold_left add_score (constant_dict t todo)
    (constant_dict (fadd (of_int 0) t) done) =
  constant_dict (fadd (of_int 0) t) (done ++ todo).
Proof.
  revert done. induction todo as [|o tl IH]; intros done Hnd; simpl.
  - now rewrite app_nil_r.
  - destruct (NoDup_app_head _ _ _ Hnd) as [Hnin Hnd'].
    unfold add_score at 2. simpl. unfold dict_get_default.
    assert (Hget : dict_get String.eqb o (constant_dict (fadd (of_int 0) t) done) = None)
      by (apply (dict_get_None String.eqb_spec); now rewrite constant_dict_keys).
    rewrite Hget.
    rewrite <- (app_nil_r (constant_dict (fadd (of_int 0) t) done)) at 1.
    rewrite (dict_set_app_skip String.eqb_spec)
      by (now rewrite constant_dict_keys).
    simpl.
    specialize (IH (done ++ [o]) Hnd').
    rewrite constant_dict_app in IH. simpl in IH. rewrite IH.
    now rewrite <- app_assoc.
Qed.

Lemma add_score_domains (t : Domain -> F) (opts : list string) (doms : list Domain) (s : F) :
  NoDup opts ->
  fold_left add_score (flat_map (fun dom => constant_dict (t dom) opts) doms)
    (constant_dict s opts) =
  constant_dict (uniform_score t doms s) opts.
Proof.
  intros Hnd. revert s. induction doms as [|dom tl IH]; intros s; simpl; [reflexivity|].
  rewrite fold_left_app.
  pose proof (add_score_in_place (t dom) s opts [] Hnd) as Hstep.
  simpl in Hstep. rewrite Hstep. apply IH.
Qed.

Lemma add_score_all_domains (t : Domain -> F) (opts : list string) (doms : list Domain) :
  NoDup opts -> doms <> [] ->
  fold_left add_score (flat_map (fun dom => constant_dict (t dom) opts) doms) [] =
  constant_dict (uniform_score t doms (of_int 0)) opts.
Proof.
  intros Hnd Hne. destruct doms as [|dom tl]; [congruence|]. simpl.
  rewrite fold_left_app.
  pose proof (add_score_fresh (t dom) opts [] Hnd) as Hstep.
  simpl in Hstep. rewrite Hstep. now apply add_score_domains.
Qed.

(** With equal values [max] keeps the first key. *)
Lemma max_loop_constant (s : F) (best : string) (rest : list string) :
  fgtb s s = false ->
  max_loop (best, s) (constant_dict s rest) = best.
Proof.
  intros Hirr. induction rest as [|o tl IH]; simpl; [reflexivity|].
  now rewrite Hirr.
Qed.

(** The comprehension that normalizes keeps the keys in order. *)
Lemma normalize_weights_fold (total : F) (todo done : dict Domain F) :
  fis_zero total = false ->
  NoDup (dict_keys (done ++ todo)) ->
  fold_left
    (fun acc kv =>
       out <- acc ;;
       q <- py_div (snd kv) total ;;
       Ok (dict_set Domain_eqb (fst kv) q out))
    todo (Ok (map (fun kv => (fst kv, fdiv (snd kv) total)) done)) =
  Ok (map (fun kv => (fst kv, fdiv (snd kv) total)) (done ++ todo)).
Proof.
  intros Hz. revert done. induction todo as [|[k v] tl IH]; intros done Hnd; simpl.
  - now rewrite app_nil_r.
  - unfold py_div at 2. rewrite Hz. simpl.
    unfold dict_keys in Hnd. rewrite map_app in Hnd. simpl in Hnd.
    destruct (NoDup_app_head _ _ _ Hnd) as [Hnin Hnd'].
    rewrite <- (app_nil_r (map _ done)) at 1.
    rewrite (dict_set_app_skip Domain_eqb_spec).
    2:{ unfold dict_keys. rewrite map_map. simpl. exact Hnin. }
    simpl.
    specialize (IH (done ++ [(k, v)])).
    rewrite map_app in IH. simpl in IH.
    etransitivity; [apply IH|].
    + unfold dict_keys. rewrite !map_app. simpl. exact Hnd'.
    + now rewrite <- app_assoc.
Qed.

Lemma normalize_weights_ok (w : dict Domain F) :
  fis_zero (py_sum (dict_values w)) = false ->
  NoDup (dict_keys w) ->
  normalize_weights w =
  Ok (map (fun kv => (fst kv, fdiv (snd kv) (py_sum (dict_values w)))) w).
Proof.
  intros Hz Hnd. unfold normalize_weights.
  exact (@normalize_weights_fold _ w [] Hz Hnd).
Qed.
End UniformFacts.

(** ** Context weights *)

Section WeightFacts.
Context {F : Type} `{PyFloat F}.
Local Open Scope py_scope.

Lemma adjust_weights_base (d : Decision F) :
  adjust_weights d _initialize_domain_weights = Ok (scaled_weights d).
Proof.
  unfold adjust_weights, scaled_weights, scaled_weight.
  destruct (impact_scale d =? "global")%string; reflexivity.
Qed.

Lemma scaled_weights_keys (d : Decision F) : dict_keys (scaled_weights d) = all_domains.
Proof. reflexivity. Qed.

Lemma spec_context_weights_keys (d : Decision F) :
  dict_keys (spec_context_weights d) = all_domains.
Proof. reflexivity. Qed.

Lemma scaled_weights_total (d : Decision F) :
  py_sum (dict_values (scaled_weights d)) =
  if (impact_scale d =? "global")%string then global_total else plain_total.
Proof.
  unfold scaled_weights, scaled_weight.
  destruct (impact_scale d =? "global")%string; reflexivity.
Qed.

Lemma context_weights_base (d : Decision F) :
  fis_zero plain_total = false ->
  fis_zero global_total = false ->
  context_weights d _initialize_domain_weights = Ok (spec_context_weights d).
Proof.
  intros Hp Hg. unfold context_weights. rewrite adjust_weights_base. simpl.
  apply normalize_weights_ok.
  - rewrite scaled_weights_total. now destruct (impact_scale d =? "global")%string.
  - rewrite scaled_weights_keys. apply NoDup_all_domains.
Qed.

(** ** The invariant of reachable stores *)

Lemma synthesize_decision_length self (decision : Decision F) (st : store F) :
  List.length (snd (synthesize_decision self decision st)) = S (List.length st).
Proof.
  rewrite synthesize_decision_run. simpl. rewrite length_app. simpl. lia.
Qed.

Lemma reachable_weights (net : GlobalCoordinationNetwork F) (st : store F) :
  reachable net st ->
  (domain_weights (intelligence_engine net) < List.length st)%nat /\
  store_get (domain_weights (intelligence_engine net)) st = _initialize_domain_weights.
Proof.
  induction 1 as [st0 st Hinit | st c sh o cs sc u Hr [IHlt IHget] | st d Hr [IHlt IHget]].
  - destruct (GlobalCoordinationNetwork_init_run st0) as (net' & Hrun & Href).
    rewrite Hrun in Hinit. injection Hinit as Hnet Hst. subst net' st.
    rewrite Href. split.
    + rewrite length_app. simpl. lia.
    + apply store_get_new.
  - rewrite submit_decision_run. split.
    + rewrite synthesize_decision_length. lia.
    + now rewrite synthesize_decision_frame.
  - split.
    + rewrite synthesize_decision_length. lia.
    + now rewrite synthesize_decision_frame.
Qed.
End WeightFacts.

Section WeightCases.
Context {F : Type} `{PyFloat F}.

Lemma spec_context_weights_cases (d : Decision F) :
  spec_context_weights d =
  if (impact_scale d =? "global")%string then global_weights else plain_weights.
Proof.
  unfold spec_context_weights, scaled_weights, scaled_weight.
  destruct (impact_scale d =? "global")%string; reflexivity.
Qed.

Lemma _calculate_context_weights_base self (d : Decision F) (st : store F) :
  fis_zero (plain_total (F:=F)) = false ->
  fis_zero (global_total (F:=F)) = false ->
  store_get (domain_weights self) st = _initialize_domain_weights ->
  fst (_calculate_context_weights self d st) = Ok (spec_context_weights d).
Proof.
  intros Hp Hg Hbase. rewrite _calculate_context_weights_run. simpl.
  rewrite Hbase. now apply context_weights_base.
Qed.
End WeightCases.

(** ** Exact arithmetic *)

Module RealFacts.
Import RealArith.
Local Open Scope R_scope.

Ltac real_arith :=
  cbv [plain_total global_total plain_weights global_weights normalized
       py_sum np_mean fold_left dict_values dict_set map snd fst
       _initialize_domain_weights float_lit fadd fsub fmul fdiv of_int
       R_float Domain_eqb Domain_eq_dec Domain_rec Domain_rect].

Lemma Ris_zero_false (x : R) : x <> 0 -> Ris_zero x = false.
Proof. intros Hx. unfold Ris_zero. now destruct (Req_dec_T x 0). Qed.

Lemma Rgtb_false (x y : R) : Rgtb x y = false <-> x <= y.
Proof. unfold Rgtb. destruct (Rlt_dec y x); split; intros; try lra; congruence. Qed.

Lemma Rgtb_irrefl (x : R) : Rgtb x x = false.
Proof. apply Rgtb_false. lra. Qed.

Lemma Rgtb_trans (x y z : R) : Rgtb x y = true -> Rgtb y z = true -> Rgtb x z = true.
Proof.
  unfold Rgtb. destruct (Rlt_dec y x), (Rlt_dec z y), (Rlt_dec z x);
    intros; try reflexivity; try discriminate. lra.
Qed.

Lemma R_plain_total : plain_total (F:=R) = 1.
Proof. real_arith. lra. Qed.

Lemma R_global_total : global_total (F:=R) = 1065 / 1000.
Proof. real_arith. lra. Qed.

Lemma R_plain_total_nonzero : fis_zero (plain_total (F:=R)) = false.
Proof. apply Ris_zero_false. rewrite R_plain_total. lra. Qed.

Lemma R_global_total_nonzero : fis_zero (global_total (F:=R)) = false.
Proof. apply Ris_zero_false. rewrite R_global_total. lra. Qed.

Lemma R_plain_weights_sum : py_sum (dict_values (plain_weights (F:=R))) = 1.
Proof. real_arith. lra. Qed.

Lemma R_global_weights_sum : py_sum (dict_values (global_weights (F:=R))) = 1.
Proof. real_arith. lra. Qed.
End RealFacts.

(** ** Binary64 arithmetic *)

Module B64Facts.
Import Binary64 B64Spec.

Lemma within_tolerance_bool (x y : Q) :
  Qle_bool (Qabs (x - y)) tolerance = true -> within_tolerance x y.
Proof. apply Qle_bool_imp_le. Qed.

Lemma B64_plain_total : plain_total (F:=spec_float) = of_int 1.
Proof. vm_compute. reflexivity. Qed.

Lemma B64_plain_total_nonzero : fis_zero (plain_total (F:=spec_float)) = false.
Proof. vm_compute. reflexivity. Qed.

Lemma B64_global_total_nonzero : fis_zero (global_total (F:=spec_float)) = false.
Proof. vm_compute. reflexivity. Qed.

Lemma B64_weights_sum (g : bool) :
  py_sum (dict_values (if g then global_weights else plain_weights)) =
  of_int (F:=spec_float) 1.
Proof. destruct g; vm_compute; reflexivity. Qed.

Lemma B64_weights_exact_sum (g : bool) :
  within_tolerance
    (b64_exact_sum (dict_values (if g then global_weights else plain_weights))) 1.
Proof. apply within_tolerance_bool. destruct g; vm_compute; reflexivity. Qed.

Lemma B64_weights_finite (g : bool) :
  forallb b64_is_finite (dict_values (if g then global_weights else plain_weights)) = true.
Proof. destruct g; vm_compute; reflexivity. Qed.
End B64Facts.

(** ** The order of the two arithmetics *)

Ltac order_cases :=
  repeat match goal with
  | |- context [Z.compare ?a ?b] => destruct (Z.compare_spec a b)
  | |- context [Pos.compare_cont Eq ?a ?b] =>
      change (Pos.compare_cont Eq a b) with (Pos.compare a b);
      destruct (Pos.compare_spec a b)
  end.

Lemma SFltb_irrefl (x : spec_float) : SFltb x x = false.
Proof.
  unfold SFltb, SFcompare.
  destruct x as [s|s| |s m e]; try (destruct s; reflexivity); try reflexivity.
  rewrite Z.compare_refl.
  change (Pos.compare_cont Eq m m) with (Pos.compare m m).
  rewrite Pos.compare_refl. now destruct s.
Qed.

Lemma SFltb_trans (x y z : spec_float) :
  SFltb x y = true -> SFltb y z = true -> SFltb x z = true.
Proof.
  unfold SFltb, SFcompare.
  destruct x as [sx|sx| |sx mx ex], y as [sy|sy| |sy my ey], z as [sz|sz| |sz mz ez];
    try destruct sx; try destruct sy; try destruct sz;
    try discriminate; try reflexivity;
    simpl; order_cases; simpl; try discriminate; try reflexivity; intros; try lia.
Qed.

(** NaN apart, [<] is a weak order. *)
Lemma SFltb_weak (x y z : spec_float) :
  y <> S754_nan -> SFltb x z = true -> SFltb x y = true \/ SFltb y z = true.
Proof.
  unfold SFltb, SFcompare. intros Hy.
  destruct x as [sx|sx| |sx mx ex], y as [sy|sy| |sy my ey], z as [sz|sz| |sz mz ez];
    try congruence;
    try destruct sx; try destruct sy; try destruct sz;
    try discriminate; try (left; reflexivity); try (right; reflexivity);
    simpl; order_cases; simpl; try discriminate; intros;
    try (left; reflexivity); try (right; reflexivity); try lia.
Qed.

Lemma B64_strict_order : strict_order (F:=spec_float).
Proof.
  split.
  - intros x. apply SFltb_irrefl.
  - intros x y z Hxy Hyz. exact (SFltb_trans _ _ _ Hyz Hxy).
Qed.

Lemma B64_comparable (y : spec_float) : y <> S754_nan -> comparable y.
Proof. intros Hy x z Hxz. now apply SFltb_weak. Qed.

Lemma R_strict_order : strict_order (F:=R).
Proof. split; [exact RealFacts.Rgtb_irrefl | exact RealFacts.Rgtb_trans]. Qed.

Lemma R_comparable (y : R) : comparable y.
Proof.
  intros x z. cbn [fgtb RealArith.R_float]. unfold RealArith.Rgtb.
  destruct (Rlt_dec x z), (Rlt_dec x y), (Rlt_dec y z); intros; try tauto; try discriminate.
  exfalso. lra.
Qed.

(** * The properties of the specification *)

Section Samples.
Context {F : Type} `{PyFloat F}.

Lemma sample_network_init :
  GlobalCoordinationNetwork_init [] = (Ok sample_network, sample_store).
Proof. reflexivity. Qed.

Lemma sample_store_reachable : reachable sample_network sample_store.
Proof. apply reach_init with (st0 := []). apply sample_network_init. Qed.
End Samples.

(** ** Sample runs in binary64 *)

(** The benchmark decision: the first option wins the tie. *)
Example benchmark_recommendation :
  B64Spec.recommendation
    (fst (synthesize_decision (F:=spec_float) sample_engine sample_decision sample_store))
  = Some "contribute 0"%string.
Proof. vm_compute. reflexivity. Qed.

(** A label listed twice is one key, scored twice per domain: distinct
    labels matter for the uniform scores of C3. *)
Example duplicate_label_scores :
  let outcome :=
    fst (submit_decision (F:=spec_float) sample_network "Duplicate"%string []
           ["A"%string; "B"%string; "B"%string] None None None sample_store) in
  B64Spec.score_labels outcome = ["A"%string; "B"%string] /\
  B64Spec.recommendation outcome = Some "B"%string.
Proof. vm_compute. split; reflexivity. Qed.

(** ** C9: the base weights *)

(** C9.  In every store a constructed network can be run in, the dictionary
    [self.domain_weights] is still the one [_initialize_domain_weights]
    built (context weighting works on a copy), and its ten values sum to 1:
    exactly over the reals, and to the double [1.0] when added left to right
    in binary64. *)
Theorem base_weights_sum_and_never_mutated :
  (forall (net : GlobalCoordinationNetwork R) (st : store R),
      reachable net st ->
      store_get (domain_weights (intelligence_engine net)) st = _initialize_domain_weights /\
      py_sum (dict_values (store_get (domain_weights (intelligence_engine net)) st)) = 1%R) /\
  (forall (net : GlobalCoordinationNetwork spec_float) (st : store spec_float),
      reachable net st ->
      store_get (domain_weights (intelligence_engine net)) st = _initialize_domain_weights /\
      py_sum (dict_values (store_get (domain_weights (intelligence_engine net)) st)) =
      of_int 1).
Proof.
  split; intros net st Hr; destruct (reachable_weights Hr) as [_ Hget];
    rewrite Hget; (split; [reflexivity|]).
  - exact RealFacts.R_plain_total.
  - exact B64Facts.B64_plain_total.
Qed.

Lemma base_weights_sum_and_never_mutated_witness :
  let st := snd (synthesize_decision (F:=R) sample_engine sample_decision sample_store) in
  store_get 0 st = _initialize_domain_weights /\
  py_sum (dict_values (store_get 0 st)) = 1%R.
Proof.
  apply (proj1 base_weights_sum_and_never_mutated sample_network).
  apply (@reach_synthesize _ _ sample_network sample_store sample_decision).
  apply reach_init with (st0 := []). reflexivity.
Defined.

(** ** C2: context weighting *)

(** C2.  Run on the base weights, [_calculate_context_weights] returns the
    base weights, with the Systems-Thinking weight multiplied by 1.5 exactly
    when [impact_scale] is ["global"], each divided by the sum of them all.
    The returned weights sum to 1: exactly over the reals; in binary64 they
    are finite, their left-to-right float sum is the double [1.0] and their
    exact rational sum is within 1e-9 of 1. *)
Theorem context_weights_normalized :
  (forall (self : UniversalIntelligenceSynthesis R) (d : Decision R) (st : store R),
      store_get (domain_weights self) st = _initialize_domain_weights ->
      exists w,
        fst (_calculate_context_weights self d st) = Ok w /\
        w = spec_context_weights d /\
        (impact_scale d = "global"%string -> w = global_weights) /\
        (impact_scale d <> "global"%string -> w = plain_weights) /\
        py_sum (dict_values w) = 1%R) /\
  (forall (self : UniversalIntelligenceSynthesis spec_float) (d : Decision spec_float)
          (st : store spec_float),
      store_get (domain_weights self) st = _initialize_domain_weights ->
      exists w,
        fst (_calculate_context_weights self d st) = Ok w /\
        w = spec_context_weights d /\
        (impact_scale d = "global"%string -> w = global_weights) /\
        (impact_scale d <> "global"%string -> w = plain_weights) /\
        py_sum (dict_values w) = of_int 1 /\
        forallb Binary64.b64_is_finite (dict_values w) = true /\
        B64Spec.within_tolerance (B64Spec.b64_exact_sum (dict_values w)) 1).
Proof.
  split; intros self d st Hbase; exists (spec_context_weights d).
  - split; [|split; [reflexivity|split; [|split]]].
    + apply _calculate_context_weights_base;
        [exact RealFacts.R_plain_total_nonzero
        |exact RealFacts.R_global_total_nonzero
        |exact Hbase].
    + intros Heq. rewrite spec_context_weights_cases.
      apply String.eqb_eq in Heq. now rewrite Heq.
    + intros Hne. rewrite spec_context_weights_cases.
      apply String.eqb_neq in Hne. now rewrite Hne.
    + rewrite spec_context_weights_cases.
      destruct (impact_scale d =? "global")%string.
      * exact RealFacts.R_global_weights_sum.
      * exact RealFacts.R_plain_weights_sum.
  - split; [|split; [reflexivity|split; [|split; [|split; [|split]]]]].
    + apply _calculate_context_weights_base;
        [exact B64Facts.B64_plain_total_nonzero
        |exact B64Facts.B64_global_total_nonzero
        |exact Hbase].
    + intros Heq. rewrite spec_context_weights_cases.
      apply String.eqb_eq in Heq. now rewrite Heq.
    + intros Hne. rewrite spec_context_weights_cases.
      apply String.eqb_neq in Hne. now rewrite Hne.
    + rewrite spec_context_weights_cases. apply B64Facts.B64_weights_sum.
    + rewrite spec_context_weights_cases. apply B64Facts.B64_weights_finite.
    + rewrite spec_context_weights_cases. apply B64Facts.B64_weights_exact_sum.
Qed.

Lemma context_weights_normalized_witness :
  exists w,
    fst (_calculate_context_weights (F:=spec_float) sample_engine sample_decision
           sample_store) = Ok w /\
    w = spec_context_weights sample_decision /\
    (impact_scale (F:=spec_float) sample_decision = "global"%string -> w = global_weights) /\
    (impact_scale (F:=spec_float) sample_decision <> "global"%string -> w = plain_weights) /\
    py_sum (dict_values w) = of_int 1 /\
    forallb Binary64.b64_is_finite (dict_values w) = true /\
    B64Spec.within_tolerance (B64Spec.b64_exact_sum (dict_values w)) 1.
Proof.
  apply (proj2 context_weights_normalized sample_engine sample_decision sample_store).
  reflexivity.
Defined.

(** ** C1: the reducer *)

Module MeanFacts.
Import RealArith RealSpec.
Local Open Scope R_scope.

Lemma fold_left_Rplus (xs : list R) (a : R) : fold_left Rplus xs a = a + Rsum xs.
Proof.
  revert a. induction xs as [|x tl IH]; intros a; simpl; [lra|].
  rewrite IH. lra.
Qed.

Lemma Rsum_app (l1 l2 : list R) : Rsum (l1 ++ l2) = Rsum l1 + Rsum l2.
Proof.
  induction l1 as [|x tl IH]; simpl; [lra|].
  unfold Rsum in *. simpl. rewrite IH. lra.
Qed.

(** Over the reals the order in which NumPy adds does not matter. *)
Lemma unrolled_loop_sum (n : nat) :
  forall (xs : list R) (r0 r1 r2 r3 r4 r5 r6 r7 : R),
    (List.length xs <= n)%nat ->
    let '((s0, s1, s2, s3, s4, s5, s6, s7), rest) :=
      unrolled_loop (r0, r1, r2, r3, r4, r5, r6, r7) xs in
    s0 + s1 + s2 + s3 + s4 + s5 + s6 + s7 + Rsum rest =
    r0 + r1 + r2 + r3 + r4 + r5 + r6 + r7 + Rsum xs.
Proof.
  induction n as [|n IH]; intros xs r0 r1 r2 r3 r4 r5 r6 r7 Hlen.
  - destruct xs; [reflexivity | simpl in Hlen; lia].
  - destruct xs as [|x0 [|x1 [|x2 [|x3 [|x4 [|x5 [|x6 [|x7 tl]]]]]]]];
      try reflexivity.
    cbn [unrolled_loop].
    assert (Htl : (List.length tl <= n)%nat) by (simpl in Hlen; lia).
    specialize (IH tl (r0 + x0) (r1 + x1) (r2 + x2) (r3 + x3)
                  (r4 + x4) (r5 + x5) (r6 + x6) (r7 + x7) Htl).
    change (@fadd R R_float) with Rplus.
    destruct (unrolled_loop _ tl) as [[[[[[[[s0 s1] s2] s3] s4] s5] s6] s7] rest].
    rewrite IH. simpl. lra.
Qed.

Lemma R_block_sum (xs : list R) : block_sum xs = Rsum xs.
Proof.
  destruct xs as [|x0 [|x1 [|x2 [|x3 [|x4 [|x5 [|x6 [|x7 tl]]]]]]]];
    try (unfold block_sum; change (@fadd R R_float) with Rplus;
         rewrite fold_left_Rplus; simpl; lra).
  unfold block_sum.
  pose proof (unrolled_loop_sum tl x0 x1 x2 x3 x4 x5 x6 x7 (le_n _)) as Hloop.
  destruct (unrolled_loop _ tl) as [[[[[[[[s0 s1] s2] s3] s4] s5] s6] s7] rest].
  change (@fadd R R_float) with Rplus. rewrite fold_left_Rplus.
  simpl. lra.
Qed.

Lemma R_pairwise_sum (xs : list R) : pairwise_sum xs = Rsum xs.
Proof.
  unfold pairwise_sum. generalize (List.length xs) at 1 as fuel. intros fuel.
  revert xs. induction fuel as [|fuel IH]; intros xs; cbn [pairwise_sum_rec].
  - apply R_block_sum.
  - destruct (List.length xs <=? PW_BLOCKSIZE)%nat; [apply R_block_sum|].
    rewrite !IH. change (@fadd R R_float) with Rplus.
    now rewrite <- Rsum_app, firstn_skipn.
Qed.

Lemma np_mean_arithmetic_mean (xs : list R) : np_mean xs = arithmetic_mean xs.
Proof.
  unfold np_mean, arithmetic_mean. rewrite R_pairwise_sum.
  change (@fdiv R R_float) with Rdiv. change (@of_int R R_float) with IZR.
  now rewrite <- INR_IZR_INZ.
Qed.

Lemma catalog_length {A : Type} (analyses : dict Domain A) :
  Permutation (dict_keys analyses) all_domains -> List.length analyses = 10%nat.
Proof.
  intros Hp. apply Permutation_length in Hp.
  unfold dict_keys in Hp. now rewrite length_map in Hp.
Qed.
End MeanFacts.

Section ReducerSpec.
Context {F : Type} `{PyFloat F}.

(** The reducer in any arithmetic whose [>] is a strict order. *)
Lemma _perform_synthesis_spec (analyses : dict Domain (DomainAnalysis F))
    (weights : dict Domain F) :
  strict_order ->
  covers weights analyses ->
  contributions analyses weights <> [] ->
  exists r,
    _perform_synthesis analyses weights = Ok r /\
    (forall opt, In opt (map fst (contributions analyses weights)) ->
       dict_get String.eqb opt (option_scores r) = Some (spec_score analyses weights opt)) /\
    (forall opt, ~ In opt (map fst (contributions analyses weights)) ->
       dict_get String.eqb opt (option_scores r) = None) /\
    (exists best,
       dict_get String.eqb (recommended_option r) (option_scores r) = Some best /\
       forall opt score,
         dict_get String.eqb opt (option_scores r) = Some score ->
         fgtb score best = false) /\
    synthesis_confidence r = np_mean (map confidence (dict_values analyses)).
Proof.
  intros [Hirr Htrans] Hcov Hne.
  unfold _perform_synthesis. rewrite (accumulate_scores_fold Hcov). simpl.
  set (scores := fold_left add_score (contributions analyses weights) []).
  assert (Hnd : NoDup (dict_keys scores)) by (apply add_score_NoDup; constructor).
  pose proof (@py_max_key_spec F _ Hirr Htrans scores) as Hmax.
  destruct (py_max_key scores) as [k|e].
  - cbn [rbind]. eexists. split; [reflexivity|].
    cbn [option_scores recommended_option synthesis_confidence].
    split; [|split; [|split]].
    + intros opt Hin. unfold scores. rewrite add_score_get.
      unfold spec_score.
      destruct (contributions_to opt (contributions analyses weights)) eqn:E.
      * apply contributions_to_nil in E. contradiction.
      * reflexivity.
    + intros opt Hnin. unfold scores. rewrite add_score_get.
      apply contributions_to_nil in Hnin. now rewrite Hnin.
    + destruct Hmax as (v & Hin & Hall). exists v. split.
      * now apply (dict_In_get String.eqb_spec).
      * intros opt score Hget.
        apply (Hall opt). now apply (dict_get_In String.eqb_spec).
    + reflexivity.
  - destruct Hmax as [Hnil _]. exfalso.
    now apply (@add_score_nonempty _ _ _ [] Hne).
Qed.
End ReducerSpec.

(** C1.  Given one analysis per catalog domain and a weight for every
    domain, with at least one reported (option, probability) pair, the
    reducer returns; [option_scores] maps exactly the reported option labels,
    each to the sum, started from 0 and taken in the order of the two loops,
    of [probability * weight[domain] * confidence] over the pairs that report
    it; [recommended_option] is a key of [option_scores] whose score no
    score exceeds; and [synthesis_confidence] is the mean of the ten
    confidences.  (The weights need not be normalized.)  This is proved of
    the program's arithmetic, binary64, where every sum and product is
    rounded, "exceeds" is the comparison [>] of doubles and the mean is
    the one NumPy computes: the ten confidences added in NumPy's order
    and divided by 10.  It is proved over the reals as well, where the mean
    is the sum of the ten confidences divided by 10. *)
Theorem perform_synthesis_correct :
  (forall (analyses : dict Domain (DomainAnalysis spec_float))
          (weights : dict Domain spec_float),
      Permutation (dict_keys analyses) all_domains ->
      (forall dom, In dom (dict_keys weights)) ->
      contributions analyses weights <> [] ->
      exists r,
        _perform_synthesis analyses weights = Ok r /\
        (forall opt, In opt (map fst (contributions analyses weights)) ->
           dict_get String.eqb opt (option_scores r) =
           Some (spec_score analyses weights opt)) /\
        (forall opt, ~ In opt (map fst (contributions analyses weights)) ->
           dict_get String.eqb opt (option_scores r) = None) /\
        (exists best,
           dict_get String.eqb (recommended_option r) (option_scores r) = Some best /\
           forall opt score,
             dict_get String.eqb opt (option_scores r) = Some score ->
             fgtb score best = false) /\
        exists c0 c1 c2 c3 c4 c5 c6 c7 c8 c9,
          map confidence (dict_values analyses) =
            [c0; c1; c2; c3; c4; c5; c6; c7; c8; c9] /\
          synthesis_confidence r = mean_of_ten c0 c1 c2 c3 c4 c5 c6 c7 c8 c9) /\
  (forall (analyses : dict Domain (DomainAnalysis R)) (weights : dict Domain R),
      Permutation (dict_keys analyses) all_domains ->
      (forall dom, In dom (dict_keys weights)) ->
      contributions analyses weights <> [] ->
      exists r,
        _perform_synthesis analyses weights = Ok r /\
        (forall opt, In opt (map fst (contributions analyses weights)) ->
           dict_get String.eqb opt (option_scores r) =
           Some (spec_score analyses weights opt)) /\
        (forall opt, ~ In opt (map fst (contributions analyses weights)) ->
           dict_get String.eqb opt (option_scores r) = None) /\
        (exists best,
           dict_get String.eqb (recommended_option r) (option_scores r) = Some best /\
           forall opt score,
             dict_get String.eqb opt (option_scores r) = Some score ->
             (score <= best)%R) /\
        synthesis_confidence r =
          (RealSpec.Rsum (map confidence (dict_values analyses)) / 10)%R).
Proof.
  split; intros analyses weights Hperm Hweights Hne;
    assert (Hcov : covers weights analyses) by (intros dom _; apply Hweights).
  - destruct (_perform_synthesis_spec B64_strict_order Hcov Hne)
      as (r & Hrun & Hin & Hout & Hmax & Hconf).
    exists r. repeat (split; [assumption|]).
    destruct (np_figures_of_ten _ (catalog_confidences analyses Hperm))
      as (c0 & c1 & c2 & c3 & c4 & c5 & c6 & c7 & c8 & c9 & Hcs & Hmean & _).
    exists c0, c1, c2, c3, c4, c5, c6, c7, c8, c9. split; [exact Hcs|].
    now rewrite Hconf.
  - destruct (_perform_synthesis_spec R_strict_order Hcov Hne)
      as (r & Hrun & Hin & Hout & (best & Hbest & Hall) & Hconf).
    exists r. repeat (split; [assumption|]). split.
    + exists best. split; [assumption|].
      intros opt score Hget. apply RealFacts.Rgtb_false. now apply (Hall opt).
    + rewrite Hconf, MeanFacts.np_mean_arithmetic_mean.
      unfold RealSpec.arithmetic_mean.
      rewrite (catalog_confidences analyses Hperm). simpl INR. f_equal. lra.
Qed.

(** ** C3: the uniform stub *)

Section UniformSynthesis.
Context {F : Type} `{PyFloat F}.

Lemma contributions_stub (d : Decision F) (W : dict Domain F) (doms : list Domain) :
  contributions (map (fun dom => (dom, stub_analysis d)) doms) W =
  flat_map (fun dom => constant_dict (stub_term d W dom) (options d)) doms.
Proof.
  unfold contributions. induction doms as [|dom tl IH]; simpl; [reflexivity|].
  rewrite IH. f_equal. unfold constant_dict. now rewrite map_map.
Qed.

Lemma stub_analyses_keys (d : Decision F) : dict_keys (stub_analyses d) = all_domains.
Proof. reflexivity. Qed.

Lemma _perform_synthesis_stub (d : Decision F) (W : dict Domain F) (o : string)
    (tl : list string) :
  options d = o :: tl ->
  NoDup (options d) ->
  (forall dom, In dom (dict_keys W)) ->
  fgtb (stub_score d W) (stub_score d W) = false ->
  _perform_synthesis (stub_analyses d) W =
  Ok {| recommended_option := o;
        option_scores := constant_dict (stub_score d W) (options d);
        synthesis_confidence := np_mean (confidences (stub_analyses d)) |}.
Proof.
  intros Hopts Hnd HW Hirr.
  assert (Hcov : covers W (stub_analyses d)) by (intros dom _; apply HW).
  unfold _perform_synthesis. rewrite (accumulate_scores_fold Hcov).
  unfold stub_analyses at 1. rewrite contributions_stub.
  rewrite add_score_all_domains by (assumption || discriminate).
  fold (stub_score d W).
  cbn [rbind]. rewrite Hopts at 1. cbn [constant_dict map py_max_key rbind].
  change (map (fun k => (k, stub_score d W)) tl) with (constant_dict (stub_score d W) tl).
  rewrite (@max_loop_constant _ _ (stub_score d W) o tl Hirr). reflexivity.
Qed.

(** An empty [options] list leaves the score dictionary empty. *)
Lemma _perform_synthesis_no_options (d : Decision F) (W : dict Domain F) :
  options d = [] ->
  (forall dom, In dom (dict_keys W)) ->
  _perform_synthesis (stub_analyses d) W = Raise ValueError.
Proof.
  intros Hopts HW.
  assert (Hcov : covers W (stub_analyses d)) by (intros dom _; apply HW).
  unfold _perform_synthesis. rewrite (accumulate_scores_fold Hcov).
  unfold stub_analyses. rewrite contributions_stub, Hopts. reflexivity.
Qed.

Lemma spec_context_weights_complete (d : Decision F) (dom : Domain) :
  In dom (dict_keys (spec_context_weights d)).
Proof. rewrite spec_context_weights_keys. apply all_domains_complete. Qed.

Lemma stub_score_with_length (d : Decision F) (W : dict Domain F) :
  stub_score d W = stub_score_with W (List.length (options d)).
Proof. reflexivity. Qed.
End UniformSynthesis.

Section StubPipeline.
Context {F : Type} `{PyFloat F}.

Lemma synthesize_pure_stub (d : Decision F) (o : string) (tl : list string) :
  fis_zero (plain_total (F:=F)) = false ->
  fis_zero (global_total (F:=F)) = false ->
  options d = o :: tl ->
  NoDup (options d) ->
  fgtb (stub_score d (spec_context_weights d)) (stub_score d (spec_context_weights d)) = false ->
  synthesize_pure d _initialize_domain_weights =
  Ok {| decision_synthesis :=
          {| recommended_option := o;
             option_scores := constant_dict (stub_score d (spec_context_weights d)) (options d);
             synthesis_confidence := np_mean (confidences (stub_analyses d)) |};
        coordination_protocol :=
          {| implementation_phases :=
               [ {| phase := "foundation"; focus := "stakeholder_alignment"; duration := "20%" |};
                 {| phase := "coordination"; focus := "synchronized_action"; duration := "60%" |};
                 {| phase := "optimization"; focus := "continuous_improvement"; duration := "20%" |} ] |};
        confidence_metrics := _calculate_confidence_metrics (stub_analyses d) |}.
Proof.
  intros Hp Hg Hopts Hnd Hirr. unfold synthesize_pure.
  rewrite analyze_all_total. cbn [rbind].
  rewrite (context_weights_base d Hp Hg). cbn [rbind].
  fold (stub_analyses d).
  rewrite (@_perform_synthesis_stub _ _ d (spec_context_weights d) o tl Hopts Hnd
             (spec_context_weights_complete d) Hirr).
  reflexivity.
Qed.

Lemma synthesize_pure_no_options (d : Decision F) :
  fis_zero (plain_total (F:=F)) = false ->
  fis_zero (global_total (F:=F)) = false ->
  options d = [] ->
  synthesize_pure d _initialize_domain_weights = Raise ValueError.
Proof.
  intros Hp Hg Hopts. unfold synthesize_pure.
  rewrite analyze_all_total. cbn [rbind].
  rewrite (context_weights_base d Hp Hg). cbn [rbind].
  fold (stub_analyses d).
  now rewrite (@_perform_synthesis_no_options _ _ d (spec_context_weights d) Hopts
                 (spec_context_weights_complete d)).
Qed.
End StubPipeline.

Module UniformReal.
Import RealArith.
Local Open Scope R_scope.

Lemma R_weighted_sum (g : bool) (p c : R) :
  uniform_score
    (fun dom => p * weight_of (if g then global_weights else plain_weights) dom * c)
    all_domains 0 = p * c.
Proof.
  unfold plain_weights, global_weights, normalized.
  change (py_sum (dict_values (_initialize_domain_weights (F:=R)))) with (plain_total (F:=R)).
  change (py_sum (dict_values (dict_set Domain_eqb SYSTEMS_THINKING
            (fmul (float_lit 13 100) (float_lit 15 10)) (_initialize_domain_weights (F:=R)))))
    with (global_total (F:=R)).
  rewrite RealFacts.R_plain_total, RealFacts.R_global_total.
  destruct g;
    cbv [uniform_score all_domains fold_left weight_of dict_get_default dict_get
         dict_set map fst snd _initialize_domain_weights float_lit fadd fsub fmul fdiv
         of_int R_float Domain_eqb Domain_eq_dec Domain_rec Domain_rect];
    field.
Qed.

(** Over the reals the ten weighted terms add up to 0.85 / n. *)
Lemma R_stub_score (d : Decision R) :
  options d <> [] ->
  stub_score d (spec_context_weights d) = 85 / 100 / INR (List.length (options d)).
Proof.
  intros Hne. unfold stub_score, stub_term. rewrite spec_context_weights_cases.
  pose proof (R_weighted_sum (impact_scale d =? "global")%string
                (1 / IZR (Z.of_nat (List.length (options d)))) (85 / 100)) as Hsum.
  destruct (impact_scale d =? "global")%string;
    (etransitivity; [exact Hsum|]); rewrite <- INR_IZR_INZ; field;
    apply not_0_INR; destruct (options d); simpl; congruence.
Qed.
End UniformReal.

Module UniformB64.
Import Binary64 B64Spec.

(** The rounding of the score, checked for 1 to [MAX_CHECKED_OPTIONS]
    options under both weight vectors. *)
Lemma B64_scores_checked :
  (let W := global_weights in
   forallb (fun n => close_to_ideal_bool (stub_score_with W n) n)
     (seq 1 MAX_CHECKED_OPTIONS)) = true /\
  (let W := plain_weights in
   forallb (fun n => close_to_ideal_bool (stub_score_with W n) n)
     (seq 1 MAX_CHECKED_OPTIONS)) = true.
Proof. split; vm_compute; reflexivity. Qed.

Lemma close_to_ideal_of_bool (x : spec_float) (n : nat) :
  close_to_ideal_bool x n = true -> close_to_ideal x n.
Proof.
  unfold close_to_ideal_bool, close_to_ideal. intros Hb.
  apply andb_prop in Hb. destruct Hb as [Hfin Hle].
  split; [exact Hfin | now apply Qle_bool_imp_le].
Qed.

Lemma B64_score_close (d : Decision spec_float) :
  (1 <= List.length (options d) <= MAX_CHECKED_OPTIONS)%nat ->
  close_to_ideal
    (stub_score_with (spec_context_weights d) (List.length (options d)))
    (List.length (options d)).
Proof.
  intros Hn. apply close_to_ideal_of_bool.
  destruct B64_scores_checked as [Hglobal Hplain]. cbv zeta in Hglobal, Hplain.
  rewrite forallb_forall in Hglobal, Hplain.
  rewrite spec_context_weights_cases.
  destruct (impact_scale d =? "global")%string;
    [apply Hglobal | apply Hplain]; apply in_seq; lia.
Qed.
End UniformB64.

Lemma sample_options_NoDup (F : Type) `{PyFloat F} : NoDup (options (F:=F) sample_decision).
Proof.
  repeat constructor; simpl; intuition discriminate.
Qed.

(** C3, as stated, fails in binary64: the two options of the benchmark
    decision get one score, but it is 0.42500000000000004, the double above
    the double [0.85 / 2], and not the rational 17/40 either. *)
Lemma uniform_score_rounded :
  exists r score,
    fst (synthesize_decision (F:=spec_float) sample_engine sample_decision sample_store)
      = Ok r /\
    option_scores (decision_synthesis r) =
      constant_dict score (options (F:=spec_float) sample_decision) /\
    score = S754_finite false 7656119366529844 (-54) /\
    fdiv (float_lit 85 100) (of_int 2) = S754_finite false 7656119366529843 (-54) /\
    score <> fdiv (float_lit 85 100) (of_int 2) /\
    ~ (Binary64.b64_to_Q score == 17 # 40)%Q.
Proof.
  assert (Hscore : stub_score (F:=spec_float) sample_decision
                     (spec_context_weights sample_decision) =
                   S754_finite false 7656119366529844 (-54))
    by (vm_compute; reflexivity).
  eexists. exists (S754_finite false 7656119366529844 (-54)). split.
  - rewrite synthesize_decision_run. cbn [fst].
    change (store_get (domain_weights sample_engine) sample_store)
      with (_initialize_domain_weights (F:=spec_float)).
    rewrite (@synthesize_pure_stub _ _ sample_decision "contribute 0"%string
               ["contribute full"%string] B64Facts.B64_plain_total_nonzero
               B64Facts.B64_global_total_nonzero eq_refl
               (@sample_options_NoDup spec_float _) (SFltb_irrefl _)).
    reflexivity.
  - cbn [decision_synthesis option_scores]. rewrite Hscore.
    split; [reflexivity|]. split; [reflexivity|].
    split; [vm_compute; reflexivity|]. split.
    + vm_compute. discriminate.
    + vm_compute. discriminate.
Qed.

(** C3, amended.  For a decision with a non-empty list of distinct options,
    run in a store of a constructed network, the pipeline returns;
    [option_scores] lists the options in their order, each with the same
    score, and [recommended_option] is the first option, whatever the other
    attributes of the decision.  In binary64 that score is the sum in which,
    from 0, every domain in turn adds [(1 / n) * weight * 0.85], each
    operation rounded; for up to [MAX_CHECKED_OPTIONS] options it is finite
    and within one part in 10^15 of 0.85 / n.  Over the reals it is
    0.85 / n. *)
Theorem stub_scores_uniform :
  (forall (net : GlobalCoordinationNetwork spec_float) (d : Decision spec_float)
          (st : store spec_float),
      reachable net st ->
      options d <> [] ->
      NoDup (options d) ->
      exists r score,
        fst (synthesize_decision (intelligence_engine net) d st) = Ok r /\
        option_scores (decision_synthesis r) = constant_dict score (options d) /\
        hd_error (options d) = Some (recommended_option (decision_synthesis r)) /\
        score = stub_score_with (spec_context_weights d) (List.length (options d)) /\
        ((List.length (options d) <= B64Spec.MAX_CHECKED_OPTIONS)%nat ->
         B64Spec.close_to_ideal score (List.length (options d)))) /\
  (forall (net : GlobalCoordinationNetwork R) (d : Decision R) (st : store R),
      reachable net st ->
      options d <> [] ->
      NoDup (options d) ->
      exists r,
        fst (synthesize_decision (intelligence_engine net) d st) = Ok r /\
        option_scores (decision_synthesis r) =
          constant_dict (85 / 100 / INR (List.length (options d)))%R (options d) /\
        hd_error (options d) = Some (recommended_option (decision_synthesis r))).
Proof.
  split; intros net d st Hr Hne Hnd; destruct (reachable_weights Hr) as [_ Hbase];
    rewrite synthesize_decision_run; cbn [fst]; rewrite Hbase;
    destruct (options d) as [|o tl] eqn:Hopts; try congruence;
    rewrite <- Hopts in Hnd.
  - rewrite (@synthesize_pure_stub _ _ d o tl B64Facts.B64_plain_total_nonzero
               B64Facts.B64_global_total_nonzero Hopts Hnd (SFltb_irrefl _)).
    eexists. exists (stub_score d (spec_context_weights d)).
    split; [reflexivity|]. rewrite Hopts. split; [reflexivity|].
    cbn [decision_synthesis recommended_option hd_error]. split; [reflexivity|].
    rewrite <- Hopts. split; [apply stub_score_with_length|].
    intros Hmax. rewrite stub_score_with_length. apply UniformB64.B64_score_close.
    split; [rewrite Hopts; simpl; lia | exact Hmax].
  - rewrite (@synthesize_pure_stub _ _ d o tl RealFacts.R_plain_total_nonzero
               RealFacts.R_global_total_nonzero Hopts Hnd (RealFacts.Rgtb_irrefl _)).
    eexists. split; [reflexivity|].
    cbn [decision_synthesis option_scores recommended_option hd_error].
    split; [|reflexivity].
    rewrite UniformReal.R_stub_score, Hopts; [reflexivity | congruence].
Qed.

Lemma stub_scores_uniform_witness :
  exists r score,
    fst (synthesize_decision (F:=spec_float) sample_engine sample_decision sample_store)
      = Ok r /\
    option_scores (decision_synthesis r) =
      constant_dict score (options (F:=spec_float) sample_decision) /\
    hd_error (options (F:=spec_float) sample_decision) =
      Some (recommended_option (decision_synthesis r)) /\
    score = stub_score_with (spec_context_weights sample_decision)
              (List.length (options (F:=spec_float) sample_decision)) /\
    ((List.length (options (F:=spec_float) sample_decision)
      <= B64Spec.MAX_CHECKED_OPTIONS)%nat ->
     B64Spec.close_to_ideal score
       (List.length (options (F:=spec_float) sample_decision))).
Proof.
  apply (proj1 stub_scores_uniform sample_network sample_decision sample_store).
  - apply sample_store_reachable.
  - discriminate.
  - apply (@sample_options_NoDup spec_float _).
Defined.

Lemma perform_synthesis_correct_witness :
  exists r,
    _perform_synthesis (F:=spec_float) sample_analyses plain_weights = Ok r /\
    (forall opt,
       In opt (map fst (contributions (F:=spec_float) sample_analyses plain_weights)) ->
       dict_get String.eqb opt (option_scores r) =
       Some (spec_score sample_analyses plain_weights opt)) /\
    (forall opt,
       ~ In opt (map fst (contributions (F:=spec_float) sample_analyses plain_weights)) ->
       dict_get String.eqb opt (option_scores r) = None) /\
    (exists best,
       dict_get String.eqb (recommended_option r) (option_scores r) = Some best /\
       forall opt score,
         dict_get String.eqb opt (option_scores r) = Some score ->
         fgtb score best = false) /\
    exists c0 c1 c2 c3 c4 c5 c6 c7 c8 c9,
      map confidence (dict_values (sample_analyses (F:=spec_float))) =
        [c0; c1; c2; c3; c4; c5; c6; c7; c8; c9] /\
      synthesis_confidence r = mean_of_ten c0 c1 c2 c3 c4 c5 c6 c7 c8 c9.
Proof.
  apply (proj1 perform_synthesis_correct sample_analyses plain_weights).
  - apply Permutation_refl.
  - intros dom. destruct dom; cbv [dict_keys plain_weights normalized map fst
      _initialize_domain_weights In]; tauto.
  - cbv [contributions sample_analyses all_domains map flat_map app predictions snd
         Domain_eqb Domain_eq_dec Domain_rec Domain_rect].
    discriminate.
Defined.

(** ** C4: the confidence aggregator *)

Module DeviationFacts.
Import RealArith RealSpec MeanFacts.
Local Open Scope R_scope.

Lemma np_std_population (xs : list R) : np_std xs = population_standard_deviation xs.
Proof.
  unfold np_std, population_standard_deviation, population_variance.
  rewrite !np_mean_arithmetic_mean. unfold arithmetic_mean at 1.
  rewrite length_map.
  change (@fsqrt R R_float) with sqrt. reflexivity.
Qed.

Lemma Rsum_constant (c : R) (xs : list R) :
  (forall x, In x xs -> x = c) -> Rsum xs = INR (List.length xs) * c.
Proof.
  induction xs as [|x tl IH]; intros Hall.
  - simpl. lra.
  - change (Rsum (x :: tl)) with (x + Rsum tl).
    change (List.length (x :: tl)) with (S (List.length tl)). rewrite S_INR.
    rewrite IH by (intros y Hy; apply Hall; now right).
    rewrite (Hall x) at 1 by now left. lra.
Qed.

Lemma arithmetic_mean_constant (c : R) (xs : list R) :
  xs <> [] -> (forall x, In x xs -> x = c) -> arithmetic_mean xs = c.
Proof.
  intros Hne Hall. unfold arithmetic_mean. rewrite (@Rsum_constant c xs Hall).
  field. apply not_0_INR. destruct xs; simpl; congruence.
Qed.

Lemma population_deviation_constant (c : R) (xs : list R) :
  xs <> [] -> (forall x, In x xs -> x = c) -> population_standard_deviation xs = 0.
Proof.
  intros Hne Hall. unfold population_standard_deviation, population_variance.
  rewrite (@arithmetic_mean_constant c xs Hne Hall).
  rewrite (@Rsum_constant 0).
  - rewrite Rmult_0_r. unfold Rdiv. rewrite Rmult_0_l. apply sqrt_0.
  - intros y Hy. apply in_map_iff in Hy. destruct Hy as (x & <- & Hx).
    rewrite (Hall x Hx). ring.
Qed.
End DeviationFacts.

Section MetricsShape.
Context {F : Type} `{PyFloat F}.

Lemma equal_confidence_analyses_keys (c : F) :
  dict_keys (equal_confidence_analyses c) = all_domains.
Proof. reflexivity. Qed.

Lemma equal_confidence_analyses_confidences (c : F) :
  map confidence (dict_values (equal_confidence_analyses c)) = repeat c 10.
Proof. reflexivity. Qed.

(** The aggregator on ten analyses, with NumPy's figures written out. *)
Lemma _calculate_confidence_metrics_of_ten (analyses : dict Domain (DomainAnalysis F)) :
  Permutation (dict_keys analyses) all_domains ->
  exists c0 c1 c2 c3 c4 c5 c6 c7 c8 c9,
    map confidence (dict_values analyses) = [c0; c1; c2; c3; c4; c5; c6; c7; c8; c9] /\
    np_std (map confidence (dict_values analyses)) =
      deviation_of_ten c0 c1 c2 c3 c4 c5 c6 c7 c8 c9 /\
    average_confidence (_calculate_confidence_metrics analyses) =
      mean_of_ten c0 c1 c2 c3 c4 c5 c6 c7 c8 c9 /\
    synthesis_reliability (_calculate_confidence_metrics analyses) =
      fmul (mean_of_ten c0 c1 c2 c3 c4 c5 c6 c7 c8 c9)
           (fsub (of_int 1) (deviation_of_ten c0 c1 c2 c3 c4 c5 c6 c7 c8 c9)).
Proof.
  intros Hperm.
  destruct (np_figures_of_ten _ (catalog_confidences analyses Hperm))
    as (c0 & c1 & c2 & c3 & c4 & c5 & c6 & c7 & c8 & c9 & Hcs & Hmean & Hstd).
  exists c0, c1, c2, c3, c4, c5, c6, c7, c8, c9.
  unfold _calculate_confidence_metrics, confidences.
  cbn [average_confidence synthesis_reliability].
  now rewrite Hmean, Hstd.
Qed.
End MetricsShape.

Module EqualConfidences.
Import Binary64.

(** Ten confidences of 1.0, or of the stub's 0.85, have a mean that NumPy
    computes without error, and then the deviation is 0. *)
Lemma B64_exact_means (c : spec_float) :
  c = of_int 1 \/ c = float_lit 85 100 ->
  mean_of_ten c c c c c c c c c c = c /\
  deviation_of_ten c c c c c c c c c c = of_int 0 /\
  fmul (mean_of_ten c c c c c c c c c c)
       (fsub (of_int 1) (deviation_of_ten c c c c c c c c c c)) = c.
Proof. intros [-> | ->]; repeat split; vm_compute; reflexivity. Qed.
End EqualConfidences.

(** C4, as stated, fails in binary64: ten confidences of 0.6 have the mean
    0.5999999999999999, NumPy's sum of the ten being rounded, so the
    deviation is 2^-53, not 0, and [synthesis_reliability] is not
    [average_confidence]. *)
Lemma equal_confidences_deviate :
  let analyses := equal_confidence_analyses (F:=spec_float) (float_lit 6 10) in
  let m := _calculate_confidence_metrics analyses in
  Permutation (dict_keys analyses) all_domains /\
  (forall x, In x (map confidence (dict_values analyses)) -> x = float_lit 6 10) /\
  np_std (map confidence (dict_values analyses)) =
    S754_finite false 4503599627370496 (-105) /\
  np_std (map confidence (dict_values analyses)) <> of_int 0 /\
  average_confidence m <> float_lit 6 10 /\
  synthesis_reliability m <> average_confidence m.
Proof.
  cbv zeta. split; [apply Permutation_refl|]. split.
  - intros x. rewrite equal_confidence_analyses_confidences. apply repeat_spec.
  - repeat split; vm_compute; (reflexivity || discriminate).
Qed.

(** C4, amended.  For one analysis per catalog domain, [average_confidence]
    is the mean of the ten confidences and [synthesis_reliability] is
    [average_confidence * (1 - s)], [s] the population standard deviation of
    the confidences (squared deviations divided by 10).  In binary64 the two
    figures are the ones NumPy computes, every operation rounded; when the
    ten confidences are all 1.0, or all 0.85, [s] is 0 and
    [synthesis_reliability] equals [average_confidence].  Over the reals
    that holds for any ten equal confidences. *)
Theorem confidence_metrics_correct :
  (forall analyses : dict Domain (DomainAnalysis spec_float),
      Permutation (dict_keys analyses) all_domains ->
      let m := _calculate_confidence_metrics analyses in
      exists c0 c1 c2 c3 c4 c5 c6 c7 c8 c9,
        map confidence (dict_values analyses) =
          [c0; c1; c2; c3; c4; c5; c6; c7; c8; c9] /\
        average_confidence m = mean_of_ten c0 c1 c2 c3 c4 c5 c6 c7 c8 c9 /\
        synthesis_reliability m =
          fmul (average_confidence m)
               (fsub (of_int 1) (deviation_of_ten c0 c1 c2 c3 c4 c5 c6 c7 c8 c9)) /\
        (forall c,
           c = of_int 1 \/ c = float_lit 85 100 ->
           (forall x, In x [c0; c1; c2; c3; c4; c5; c6; c7; c8; c9] -> x = c) ->
           deviation_of_ten c0 c1 c2 c3 c4 c5 c6 c7 c8 c9 = of_int 0 /\
           average_confidence m = c /\
           synthesis_reliability m = average_confidence m)) /\
  (forall analyses : dict Domain (DomainAnalysis R),
      Permutation (dict_keys analyses) all_domains ->
      let confs := map confidence (dict_values analyses) in
      let m := _calculate_confidence_metrics analyses in
      List.length confs = 10%nat /\
      average_confidence m = RealSpec.arithmetic_mean confs /\
      synthesis_reliability m =
        (average_confidence m * (1 - RealSpec.population_standard_deviation confs))%R /\
      (forall c, (forall x, In x confs -> x = c) ->
         RealSpec.population_standard_deviation confs = 0%R /\
         average_confidence m = c /\
         synthesis_reliability m = average_confidence m)).
Proof.
  split.
  - intros analyses Hperm m.
    destruct (_calculate_confidence_metrics_of_ten analyses Hperm)
      as (c0 & c1 & c2 & c3 & c4 & c5 & c6 & c7 & c8 & c9 & Hcs & _ & Havg & Hrel).
    fold m in Havg, Hrel.
    exists c0, c1, c2, c3, c4, c5, c6, c7, c8, c9.
    split; [exact Hcs|]. split; [exact Havg|]. split; [now rewrite Havg|].
    intros c Hc Hall.
    assert (H0 : c0 = c) by (apply Hall; simpl; tauto).
    assert (H1 : c1 = c) by (apply Hall; simpl; tauto).
    assert (H2 : c2 = c) by (apply Hall; simpl; tauto).
    assert (H3 : c3 = c) by (apply Hall; simpl; tauto).
    assert (H4 : c4 = c) by (apply Hall; simpl; tauto).
    assert (H5 : c5 = c) by (apply Hall; simpl; tauto).
    assert (H6 : c6 = c) by (apply Hall; simpl; tauto).
    assert (H7 : c7 = c) by (apply Hall; simpl; tauto).
    assert (H8 : c8 = c) by (apply Hall; simpl; tauto).
    assert (H9 : c9 = c) by (apply Hall; simpl; tauto).
    rewrite Hrel, Havg, H0, H1, H2, H3, H4, H5, H6, H7, H8, H9.
    destruct (EqualConfidences.B64_exact_means Hc) as (Hmean & Hdev & Hprod).
    split; [exact Hdev|]. split; [exact Hmean|]. now rewrite Hprod, Hmean.
  - intros analyses Hperm confs m.
    assert (Hlen : List.length confs = 10%nat)
      by exact (catalog_confidences analyses Hperm).
    assert (Hne : confs <> []) by (destruct confs; [discriminate Hlen | discriminate]).
    assert (Havg : average_confidence m = RealSpec.arithmetic_mean confs)
      by apply MeanFacts.np_mean_arithmetic_mean.
    assert (Hrel : synthesis_reliability m =
              (average_confidence m *
               (1 - RealSpec.population_standard_deviation confs))%R).
    { rewrite <- DeviationFacts.np_std_population. reflexivity. }
    split; [assumption|]. split; [assumption|]. split; [assumption|].
    intros c Hc. repeat split.
    + now apply (@DeviationFacts.population_deviation_constant c).
    + rewrite Havg. now apply DeviationFacts.arithmetic_mean_constant.
    + rewrite Hrel, (@DeviationFacts.population_deviation_constant c confs Hne Hc). lra.
Qed.

Lemma confidence_metrics_correct_witness :
  let analyses := equal_confidence_analyses (F:=spec_float) (of_int 1) in
  let m := _calculate_confidence_metrics analyses in
  exists c0 c1 c2 c3 c4 c5 c6 c7 c8 c9,
    map confidence (dict_values analyses) =
      [c0; c1; c2; c3; c4; c5; c6; c7; c8; c9] /\
    average_confidence m = mean_of_ten c0 c1 c2 c3 c4 c5 c6 c7 c8 c9 /\
    synthesis_reliability m =
      fmul (average_confidence m)
           (fsub (of_int 1) (deviation_of_ten c0 c1 c2 c3 c4 c5 c6 c7 c8 c9)) /\
    (forall c,
       c = of_int 1 \/ c = float_lit 85 100 ->
       (forall x, In x [c0; c1; c2; c3; c4; c5; c6; c7; c8; c9] -> x = c) ->
       deviation_of_ten c0 c1 c2 c3 c4 c5 c6 c7 c8 c9 = of_int 0 /\
       average_confidence m = c /\
       synthesis_reliability m = average_confidence m).
Proof.
  apply (proj1 confidence_metrics_correct (equal_confidence_analyses (of_int 1))).
  rewrite equal_confidence_analyses_keys. apply Permutation_refl.
Defined.

(** ** C10: constant confidence metrics *)

Section Returns.
Context {F : Type} `{PyFloat F}.

(** The reducer returns as soon as one pair is reported. *)
Lemma _perform_synthesis_returns (analyses : dict Domain (DomainAnalysis F))
    (weights : dict Domain F) :
  covers weights analyses ->
  contributions analyses weights <> [] ->
  exists best,
    _perform_synthesis analyses weights =
    Ok {| recommended_option := best;
          option_scores := fold_left add_score (contributions analyses weights) [];
          synthesis_confidence := np_mean (confidences analyses) |}.
Proof.
  intros Hcov Hne. unfold _perform_synthesis.
  rewrite (accumulate_scores_fold Hcov). cbn [rbind].
  pose proof (@add_score_nonempty _ _ _ [] Hne) as Hscores.
  destruct (fold_left add_score (contributions analyses weights) []) as [|kv tl];
    [congruence|].
  eexists. reflexivity.
Qed.

Lemma synthesize_pure_returns (d : Decision F) :
  fis_zero (plain_total (F:=F)) = false ->
  fis_zero (global_total (F:=F)) = false ->
  options d <> [] ->
  exists synthesis,
    synthesize_pure d _initialize_domain_weights =
    Ok {| decision_synthesis := synthesis;
          coordination_protocol :=
            _generate_coordination_protocol d (stub_analyses d) synthesis;
          confidence_metrics := _calculate_confidence_metrics (stub_analyses d) |} /\
    synthesis_confidence synthesis = np_mean (confidences (stub_analyses d)).
Proof.
  intros Hp Hg Hne. unfold synthesize_pure.
  rewrite analyze_all_total. cbn [rbind].
  rewrite (context_weights_base d Hp Hg). cbn [rbind].
  fold (stub_analyses d).
  destruct (@_perform_synthesis_returns (stub_analyses d) (spec_context_weights d))
    as (best & Hret).
  - intros dom _. apply spec_context_weights_complete.
  - unfold stub_analyses. rewrite contributions_stub.
    destruct (options d) as [|o tl]; [congruence | discriminate].
  - rewrite Hret. cbn [rbind]. eexists. split; reflexivity.
Qed.
End Returns.

Section StubConfidences.
Context {F : Type} `{PyFloat F}.

Lemma stub_confidences (d : Decision F) :
  map confidence (dict_values (stub_analyses d)) = repeat (float_lit 85 100) 10.
Proof. reflexivity. Qed.

(** The confidence figures of a run, as NumPy's figures of ten times 0.85. *)
Lemma synthesize_pure_confidence (d : Decision F) :
  fis_zero (plain_total (F:=F)) = false ->
  fis_zero (global_total (F:=F)) = false ->
  options d <> [] ->
  exists r,
    synthesize_pure d _initialize_domain_weights = Ok r /\
    synthesis_confidence (decision_synthesis r) = np_mean (repeat (float_lit 85 100) 10) /\
    average_confidence (confidence_metrics r) = np_mean (repeat (float_lit 85 100) 10) /\
    synthesis_reliability (confidence_metrics r) =
      fmul (np_mean (repeat (float_lit 85 100) 10))
           (fsub (of_int 1) (np_std (repeat (float_lit 85 100) 10))).
Proof.
  intros Hp Hg Hne.
  destruct (synthesize_pure_returns d Hp Hg Hne) as (s & Hret & Hconf).
  eexists. split; [exact Hret|].
  cbn [decision_synthesis confidence_metrics]. split; [exact Hconf|].
  split; reflexivity.
Qed.
End StubConfidences.

Module StubConfidence.
Import RealArith RealSpec MeanFacts.
Local Open Scope R_scope.

Lemma stub_confidence_equal (x : R) : In x (repeat (85 / 100) 10) -> x = 85 / 100.
Proof. apply repeat_spec. Qed.

Lemma R_stub_figures :
  population_standard_deviation (repeat (85 / 100) 10) = 0 /\
  np_mean (repeat (85 / 100) 10) = 85 / 100 /\
  np_mean (repeat (85 / 100) 10) * (1 - np_std (repeat (85 / 100) 10)) = 85 / 100.
Proof.
  assert (Hne : repeat (85 / 100) 10 <> []) by discriminate.
  pose proof (@DeviationFacts.population_deviation_constant (85 / 100) _ Hne
                stub_confidence_equal) as Hsd.
  pose proof (@DeviationFacts.arithmetic_mean_constant (85 / 100) _ Hne
                stub_confidence_equal) as Hmean.
  split; [exact Hsd|].
  rewrite DeviationFacts.np_std_population, np_mean_arithmetic_mean, Hsd, Hmean.
  split; lra.
Qed.

(** In binary64 NumPy's sum of ten times 0.85 is 8.5 and the mean is the
    double 0.85 again, so that every deviation is 0. *)
Lemma B64_stub_figures :
  np_mean (repeat (float_lit (F:=spec_float) 85 100) 10) = float_lit 85 100 /\
  np_std (repeat (float_lit (F:=spec_float) 85 100) 10) = of_int 0 /\
  fmul (np_mean (repeat (float_lit (F:=spec_float) 85 100) 10))
       (fsub (of_int 1) (np_std (repeat (float_lit (F:=spec_float) 85 100) 10))) =
  float_lit 85 100.
Proof. repeat split; vm_compute; reflexivity. Qed.
End StubConfidence.

(** C10.  For every decision with a non-empty options list, run in a store of
    a constructed network, the pipeline returns and its confidence figures
    do not depend on the decision: every domain's analysis has confidence
    0.85, the population standard deviation of the ten confidences is 0, and
    [average_confidence], [synthesis_confidence] and [synthesis_reliability]
    are all 0.85.  In binary64, the program's arithmetic, 0.85 is the double
    the literal denotes and the figures are the ones NumPy computes; the
    same holds over the reals. *)
Theorem confidence_metrics_constant :
  (forall (net : GlobalCoordinationNetwork spec_float) (d : Decision spec_float)
          (st : store spec_float),
      reachable net st ->
      options d <> [] ->
      exists r analyses,
        fst (synthesize_decision (intelligence_engine net) d st) = Ok r /\
        analyze_all d = Ok analyses /\
        (forall dom : Domain, exists a,
            analyze_domain d dom = Ok a /\ confidence a = float_lit 85 100) /\
        map confidence (dict_values analyses) = repeat (float_lit 85 100) 10 /\
        np_std (map confidence (dict_values analyses)) = of_int 0 /\
        average_confidence (confidence_metrics r) = float_lit 85 100 /\
        synthesis_confidence (decision_synthesis r) = float_lit 85 100 /\
        synthesis_reliability (confidence_metrics r) =
          average_confidence (confidence_metrics r)) /\
  (forall (net : GlobalCoordinationNetwork R) (d : Decision R) (st : store R),
      reachable net st ->
      options d <> [] ->
      exists r analyses,
        fst (synthesize_decision (intelligence_engine net) d st) = Ok r /\
        analyze_all d = Ok analyses /\
        (forall dom : Domain, exists a,
            analyze_domain d dom = Ok a /\ confidence a = (85 / 100)%R) /\
        map confidence (dict_values analyses) = repeat (85 / 100)%R 10 /\
        RealSpec.population_standard_deviation
          (map confidence (dict_values analyses)) = 0%R /\
        average_confidence (confidence_metrics r) = (85 / 100)%R /\
        synthesis_confidence (decision_synthesis r) = (85 / 100)%R /\
        synthesis_reliability (confidence_metrics r) =
          average_confidence (confidence_metrics r)).
Proof.
  split; intros net d st Hr Hne; destruct (reachable_weights Hr) as [_ Hbase];
    rewrite synthesize_decision_run; cbn [fst]; rewrite Hbase.
  - destruct (synthesize_pure_confidence d B64Facts.B64_plain_total_nonzero
                B64Facts.B64_global_total_nonzero Hne)
      as (r & Hret & Hconf & Havg & Hrel).
    destruct StubConfidence.B64_stub_figures as (Hmean & Hstd & Hprod).
    exists r, (stub_analyses d). split; [exact Hret|].
    split; [apply analyze_all_total|]. split.
    { intros dom. exists (stub_analysis d). split; [|reflexivity].
      apply _game_theory_analysis_total. }
    rewrite stub_confidences, Hconf, Havg, Hrel, Hprod, Hmean.
    split; [reflexivity|]. split; [exact Hstd|]. repeat split.
  - destruct (synthesize_pure_confidence d RealFacts.R_plain_total_nonzero
                RealFacts.R_global_total_nonzero Hne)
      as (r & Hret & Hconf & Havg & Hrel).
    destruct StubConfidence.R_stub_figures as (Hsd & Hmean & Hprod).
    exists r, (stub_analyses d). split; [exact Hret|].
    split; [apply analyze_all_total|]. split.
    { intros dom. exists (stub_analysis d). split; [|reflexivity].
      apply _game_theory_analysis_total. }
    rewrite stub_confidences, Hconf, Havg, Hrel.
    change (@float_lit R _ 85 100) with (85 / 100)%R.
    change (@fmul R RealArith.R_float) with Rmult.
    change (@fsub R RealArith.R_float) with Rminus.
    change (@of_int R RealArith.R_float 1) with 1%R.
    rewrite Hprod, Hmean.
    split; [reflexivity|]. split; [exact Hsd|]. repeat split.
Qed.

Lemma confidence_metrics_constant_witness :
  exists r analyses,
    fst (synthesize_decision (F:=spec_float) sample_engine sample_decision sample_store)
      = Ok r /\
    analyze_all (F:=spec_float) sample_decision = Ok analyses /\
    (forall dom : Domain, exists a,
        analyze_domain (F:=spec_float) sample_decision dom = Ok a /\
        confidence a = float_lit 85 100) /\
    map confidence (dict_values analyses) = repeat (float_lit 85 100) 10 /\
    np_std (map confidence (dict_values analyses)) = of_int 0 /\
    average_confidence (confidence_metrics r) = float_lit 85 100 /\
    synthesis_confidence (decision_synthesis r) = float_lit 85 100 /\
    synthesis_reliability (confidence_metrics r) =
      average_confidence (confidence_metrics r).
Proof.
  apply (proj1 confidence_metrics_constant sample_network sample_decision sample_store).
  - apply sample_store_reachable.
  - discriminate.
Defined.

(** ** C5: the domain-analysis operation *)

(** C5, as stated, fails: asked for a value outside the catalog the operation
    returns an analysis instead of raising, and asked for [ETHICS] it returns
    the record it returns for [GAME_THEORY], whose [domain] is
    [GAME_THEORY]. *)
Lemma analyze_domain_ignores_domain :
  analyze_domain (F:=spec_float) sample_decision "astrology"%string
    <> Raise UnsupportedDomainError /\
  exists a,
    analyze_domain (F:=spec_float) sample_decision ETHICS = Ok a /\
    analyze_domain (F:=spec_float) sample_decision GAME_THEORY = Ok a /\
    domain a <> ETHICS.
Proof.
  split.
  - unfold analyze_domain. rewrite _game_theory_analysis_total. discriminate.
  - exists (stub_analysis sample_decision). unfold analyze_domain.
    rewrite _game_theory_analysis_total. repeat split. discriminate.
Qed.

Module AnalysisValidity.
Import RealArith.
Local Open Scope R_scope.

Lemma uniform_probability_bounds (n : nat) : (0 < n)%nat -> 0 <= 1 / INR n <= 1.
Proof.
  intros Hn. assert (1 <= INR n) by (apply (le_INR 1); lia).
  split.
  - apply Rlt_le, Rdiv_lt_0_compat; lra.
  - unfold Rdiv. rewrite Rmult_1_l. rewrite <- Rinv_1.
    apply Rinv_le_contravar; lra.
Qed.
End AnalysisValidity.

(** C5, amended.  Whatever is requested, a catalog domain or a value outside
    the catalog, the operation returns an analysis and raises nothing; the
    analysis has one prediction per option of the decision, in order, with
    probabilities and confidence in [0, 1]. *)
Theorem analyze_domain_total (T : Type) (requested : T) (d : Decision R) :
  exists a,
    analyze_domain d requested = Ok a /\
    map fst (predictions a) = options d /\
    (forall opt p, In (opt, p) (predictions a) -> (0 <= p <= 1)%R) /\
    (0 <= confidence a <= 1)%R.
Proof.
  exists (stub_analysis d). unfold analyze_domain.
  split; [apply _game_theory_analysis_total|]. split; [|split].
  - cbn [stub_analysis predictions]. rewrite map_map. apply map_id.
  - cbn [stub_analysis predictions]. intros opt p Hin.
    apply in_map_iff in Hin. destruct Hin as (o & Heq & Ho).
    injection Heq as _ <-.
    change (@fdiv R _ (of_int 1) (of_int (Z.of_nat (List.length (options d)))))
      with (1 / IZR (Z.of_nat (List.length (options d))))%R.
    rewrite <- INR_IZR_INZ. apply AnalysisValidity.uniform_probability_bounds.
    destruct (options d); [contradiction | simpl; lia].
  - cbn [stub_analysis confidence].
    change (@float_lit R _ 85 100) with (85 / 100)%R. lra.
Qed.

(** ** C6: an empty options sequence *)

(** C6, as stated, fails: with no options the call raises the built-in
    [ValueError] of [max], not an [InputValidationError] or an
    [EmptyOptionSet]. *)
Lemma empty_options_raise_ValueError :
  let outcome :=
    fst (submit_decision (F:=spec_float) sample_network "Empty"%string
           ["player_0"%string] [] None None None sample_store) in
  outcome = Raise ValueError /\
  outcome <> Raise InputValidationError /\
  outcome <> Raise EmptyOptionSet.
Proof. vm_compute. repeat split; discriminate. Qed.

Section EmptyOptions.
Context {F : Type} `{PyFloat F}.

(** C6, amended.  In a store of a constructed network, [submit_decision]
    with an empty options list fails with [ValueError]: the analyses and the
    weights are computed, and the reducer raises on the empty score
    dictionary; nothing catches the exception. *)
Theorem empty_options_fail
    (net : GlobalCoordinationNetwork F) (st : store F)
    (context : string) (stakeholders : list string)
    (constraints : option (dict string (Any F))) (impact_scale : option string)
    (uncertainty_level : option F) :
  nondegenerate_totals ->
  reachable net st ->
  let decision :=
    build_decision context stakeholders [] constraints impact_scale uncertainty_level in
  fst (submit_decision net context stakeholders [] constraints impact_scale
         uncertainty_level st) = Raise ValueError /\
  exists analyses weights,
    analyze_all decision = Ok analyses /\
    context_weights decision
      (store_get (domain_weights (intelligence_engine net)) st) = Ok weights /\
    accumulate_scores analyses weights = Ok [] /\
    _perform_synthesis analyses weights = Raise ValueError.
Proof.
  intros [Hp Hg] Hr decision. destruct (reachable_weights Hr) as [_ Hbase].
  rewrite submit_decision_run. fold decision.
  rewrite synthesize_decision_run. cbn [fst]. rewrite Hbase.
  split.
  - now apply synthesize_pure_no_options.
  - exists (stub_analyses decision), (spec_context_weights decision).
    split; [apply analyze_all_total|]. split; [now apply context_weights_base|].
    split.
    + rewrite accumulate_scores_fold
        by (intros dom _; apply spec_context_weights_complete).
      unfold stub_analyses. now rewrite contributions_stub.
    + apply _perform_synthesis_no_options; [reflexivity|].
      apply spec_context_weights_complete.
Qed.
End EmptyOptions.

Lemma B64_nondegenerate_totals : nondegenerate_totals (F:=spec_float).
Proof. split; reflexivity. Qed.

Lemma R_nondegenerate_totals : nondegenerate_totals (F:=R).
Proof.
  split; [exact RealFacts.R_plain_total_nonzero | exact RealFacts.R_global_total_nonzero].
Qed.

Lemma empty_options_fail_witness :
  let decision :=
    build_decision (F:=spec_float) "Empty" ["player_0"%string] [] None None None in
  fst (submit_decision (F:=spec_float) sample_network "Empty" ["player_0"%string] []
         None None None sample_store) = Raise ValueError /\
  exists analyses weights,
    analyze_all decision = Ok analyses /\
    context_weights decision
      (store_get (domain_weights (intelligence_engine sample_network)) sample_store)
      = Ok weights /\
    accumulate_scores analyses weights = Ok [] /\
    _perform_synthesis analyses weights = Raise ValueError.
Proof.
  apply (@empty_options_fail spec_float _ sample_network sample_store "Empty"
           ["player_0"%string] None None None).
  - split; reflexivity.
  - apply sample_store_reachable.
Defined.

(** ** C7 and C8: the facade *)

Section Facade.
Context {F : Type} `{PyFloat F}.

(** The pipeline reads two fields of the decision only. *)
Lemma synthesize_pure_fields (d d' : Decision F) (base : dict Domain F) :
  options d = options d' ->
  impact_scale d = impact_scale d' ->
  synthesize_pure d base = synthesize_pure d' base.
Proof.
  intros Hopts Hscale. unfold synthesize_pure.
  rewrite !analyze_all_total.
  assert (Hstub : stub_analysis d = stub_analysis d')
    by (unfold stub_analysis; now rewrite Hopts).
  assert (Hw : context_weights d base = context_weights d' base)
    by (unfold context_weights, adjust_weights; now rewrite Hscale).
  now rewrite Hstub, Hw.
Qed.

(** C7.  Two calls of [submit_decision] with the same arguments, one after
    the other on the same network, return the same result (or raise the same
    exception); more generally the outcome is a function of the arguments and
    of the dictionary [self.domain_weights] refers to, which no call
    changes. *)
Theorem submit_decision_deterministic
    (net : GlobalCoordinationNetwork F) (st : store F)
    (context : string) (stakeholders options : list string)
    (constraints : option (dict string (Any F))) (impact_scale : option string)
    (uncertainty_level : option F) :
  (domain_weights (intelligence_engine net) < List.length st)%nat ->
  let call := submit_decision net context stakeholders options constraints
                impact_scale uncertainty_level in
  fst (call (snd (call st))) = fst (call st) /\
  forall st' : store F,
    store_get (domain_weights (intelligence_engine net)) st' =
    store_get (domain_weights (intelligence_engine net)) st ->
    fst (call st') = fst (call st).
Proof.
  intros Hlt call. unfold call. rewrite submit_decision_run.
  rewrite !synthesize_decision_run. cbn [fst snd]. split.
  - now rewrite store_get_old.
  - intros st' Hsame. rewrite synthesize_decision_run. cbn [fst]. now rewrite Hsame.
Qed.

(** C8.  [submit_decision] checks nothing and does one thing: it calls the
    engine's [synthesize_decision] on the Decision made of the caller's
    [context], [stakeholders] and [options], of the caller's [constraints],
    [impact_scale] and [uncertainty_level] or, for those left out, [{}],
    ["personal"] and [0.3], and of [timeframe] 30; what that call returns or
    raises is what [submit_decision] returns or raises.  This holds whatever
    the engine's method does with the Decision, so that every field is
    pinned.  With the engine of the source the outcome is the three-part
    result of the pipeline run on that Decision, or the exception raised on
    the way, and it is the same whatever the arguments the pipeline does not
    read. *)
Theorem submit_decision_builds_and_delegates
    (net : GlobalCoordinationNetwork F) (st : store F)
    (context0 : string) (stakeholders0 options0 : list string)
    (constraints0 : option (dict string (Any F))) (impact_scale0 : option string)
    (uncertainty_level0 : option F) :
  let decision :=
    {| context := context0;
       stakeholders := stakeholders0;
       options := options0;
       constraints := match constraints0 with Some c => c | None => [] end;
       timeframe := 30;
       impact_scale :=
         match impact_scale0 with Some s => s | None => "personal"%string end;
       uncertainty_level :=
         match uncertainty_level0 with Some u => u | None => float_lit 3 10 end |} in
  (forall methods : EngineMethods F,
     @submit_decision F _ methods net context0 stakeholders0 options0 constraints0
       impact_scale0 uncertainty_level0 =
     @synthesize_decision_method F methods (intelligence_engine net) decision) /\
  submit_decision net context0 stakeholders0 options0 constraints0 impact_scale0
    uncertainty_level0 st =
    synthesize_decision (intelligence_engine net) decision st /\
  fst (submit_decision net context0 stakeholders0 options0 constraints0 impact_scale0
         uncertainty_level0 st) =
    (let base := store_get (domain_weights (intelligence_engine net)) st in
     domain_analyses <- analyze_all decision ;;
     weights <- context_weights decision base ;;
     synthesis <- _perform_synthesis domain_analyses weights ;;
     Ok {| decision_synthesis := synthesis;
           coordination_protocol :=
             _generate_coordination_protocol decision domain_analyses synthesis;
           confidence_metrics := _calculate_confidence_metrics domain_analyses |})%py /\
  forall context1 stakeholders1 constraints1 uncertainty_level1,
    fst (submit_decision net context1 stakeholders1 options0 constraints1 impact_scale0
           uncertainty_level1 st) =
    fst (submit_decision net context0 stakeholders0 options0 constraints0 impact_scale0
           uncertainty_level0 st).
Proof.
  intros decision.
  split; [intros methods; reflexivity|]. split; [reflexivity|]. split.
  - rewrite submit_decision_run. rewrite synthesize_decision_run. reflexivity.
  - intros c1 s1 k1 u1. rewrite !submit_decision_run, !synthesize_decision_run.
    cbn [fst]. apply synthesize_pure_fields; reflexivity.
Qed.
End Facade.

Lemma submit_decision_deterministic_witness :
  let call :=
    submit_decision (F:=spec_float) sample_network "Public-Goods Game"
      ["player_0"%string; "player_1"%string]
      ["contribute 0"%string; "contribute full"%string]
      None (Some "global"%string) None in
  fst (call (snd (call sample_store))) = fst (call sample_store) /\
  forall st' : store spec_float,
    store_get (domain_weights (intelligence_engine sample_network)) st' =
    store_get (domain_weights (intelligence_engine sample_network)) sample_store ->
    fst (call st') = fst (call sample_store).
Proof.
  apply (@submit_decision_deterministic spec_float _ sample_network sample_store).
  simpl. lia.
Defined.

(** * Further properties of the code *)

(** ** The reducer: which way it ends *)

Section ReducerOutcome.
Context {F : Type} `{PyFloat F}.
Local Open Scope py_scope.

Lemma accumulate_scores_stays_raised (e : exn) (analyses : dict Domain (DomainAnalysis F))
    (weights : dict Domain F) :
  fold_left
    (fun acc da =>
       scores <- acc ;;
       w <- dict_getitem Domain_eqb (fst da) weights ;;
       Ok (accumulate_predictions w (confidence (snd da)) (predictions (snd da)) scores))
    analyses (Raise e) = Raise e.
Proof. induction analyses as [|da tl IH]; simpl; [reflexivity | exact IH]. Qed.

Lemma accumulate_scores_missing (analyses : dict Domain (DomainAnalysis F))
    (weights : dict Domain F) :
  missing_weight weights analyses ->
  accumulate_scores analyses weights = Raise KeyError.
Proof.
  unfold accumulate_scores. generalize (@nil (string * F)) as init.
  induction analyses as [|[dom a] tl IH]; intros init (dom0 & Hin & Hmiss).
  - destruct Hin.
  - simpl. unfold dict_getitem.
    destruct (dict_get Domain_eqb dom weights) as [w|] eqn:Hw; simpl.
    + apply IH. exists dom0. split; [|assumption].
      destruct Hin as [Heq|Hin]; [|assumption].
      simpl in Heq. subst dom0.
      apply (dict_get_None Domain_eqb_spec) in Hmiss. congruence.
    + apply accumulate_scores_stays_raised.
Qed.

Lemma covers_or_missing (analyses : dict Domain (DomainAnalysis F))
    (weights : dict Domain F) :
  covers weights analyses \/ missing_weight weights analyses.
Proof.
  unfold covers, missing_weight.
  induction analyses as [|[dom a] tl IH].
  - left. intros dom [].
  - destruct (in_dec Domain_eq_dec dom (dict_keys weights)) as [Hin|Hnin].
    + destruct IH as [Hcov|(dom0 & Hin0 & Hmiss)].
      * left. intros dom0 [Heq|Hin0]; [simpl in Heq; now subst | now apply Hcov].
      * right. exists dom0. split; [now right | assumption].
    + right. exists dom. split; [now left | assumption].
Qed.

Lemma covers_not_missing (analyses : dict Domain (DomainAnalysis F))
    (weights : dict Domain F) :
  covers weights analyses -> ~ missing_weight weights analyses.
Proof. intros Hcov (dom & Hin & Hmiss). apply Hmiss, Hcov, Hin. Qed.

Lemma _perform_synthesis_missing (analyses : dict Domain (DomainAnalysis F))
    (weights : dict Domain F) :
  missing_weight weights analyses ->
  _perform_synthesis analyses weights = Raise KeyError.
Proof.
  intros Hmiss. unfold _perform_synthesis.
  now rewrite (accumulate_scores_missing Hmiss).
Qed.

Lemma _perform_synthesis_nothing_reported (analyses : dict Domain (DomainAnalysis F))
    (weights : dict Domain F) :
  covers weights analyses ->
  contributions analyses weights = [] ->
  _perform_synthesis analyses weights = Raise ValueError.
Proof.
  intros Hcov Hnil. unfold _perform_synthesis.
  now rewrite (accumulate_scores_fold Hcov), Hnil.
Qed.

(** X1.  The reducer ends in exactly one of three ways: [KeyError] when an
    analysed domain has no weight (whatever the predictions are),
    [ValueError] when every domain has a weight and no (option, probability)
    pair is reported, and a result in every other case. *)
Theorem _perform_synthesis_outcome (analyses : dict Domain (DomainAnalysis F))
    (weights : dict Domain F) :
  (_perform_synthesis analyses weights = Raise KeyError <->
   missing_weight weights analyses) /\
  (_perform_synthesis analyses weights = Raise ValueError <->
   covers weights analyses /\ contributions analyses weights = []) /\
  ((exists r, _perform_synthesis analyses weights = Ok r) <->
   covers weights analyses /\ contributions analyses weights <> []).
Proof.
  destruct (covers_or_missing analyses weights) as [Hcov|Hmiss].
  - pose proof (covers_not_missing Hcov) as Hnot.
    destruct (contributions analyses weights) as [|c cs] eqn:Hcs.
    + rewrite (_perform_synthesis_nothing_reported Hcov Hcs).
      split; [|split].
      * split; [discriminate | intros Hm; exfalso; exact (Hnot Hm)].
      * split; [intros _; now split | reflexivity].
      * split; [intros [r Hr]; discriminate | intros [_ Hne]; congruence].
    + assert (Hne : contributions analyses weights <> []) by (rewrite Hcs; discriminate).
      destruct (_perform_synthesis_returns Hcov Hne) as (best & Hrun).
      rewrite Hrun. split; [|split].
      * split; [discriminate | intros Hm; exfalso; exact (Hnot Hm)].
      * split; [discriminate | intros [_ Hnil]; discriminate].
      * split; [intros _; split; [assumption | discriminate] | intros _; eexists; reflexivity].
  - rewrite (_perform_synthesis_missing Hmiss).
    split; [|split].
    + split; [intros _; assumption | reflexivity].
    + split; [discriminate | intros [Hcov _]; exfalso; exact (covers_not_missing Hcov Hmiss)].
    + split; [intros [r Hr]; discriminate
             | intros [Hcov _]; exfalso; exact (covers_not_missing Hcov Hmiss)].
Qed.

(** ** The reducer: the order of the keys *)

Lemma add_score_keys (cs : list (string * F)) (init : dict string F) :
  dict_keys (fold_left add_score cs init) =
  dict_keys init ++ fresh_labels (dict_keys init) (map fst cs).
Proof.
  revert init. induction cs as [|[o t] tl IH]; intros init; simpl.
  - now rewrite app_nil_r.
  - rewrite IH. unfold add_score. cbn [fst snd].
    destruct (existsb (String.eqb o) (dict_keys init)) eqn:Hmem.
    + apply existsb_exists in Hmem. destruct Hmem as (x & Hx & Heq).
      apply String.eqb_eq in Heq. subst x.
      now rewrite (dict_set_keys_old String.eqb_spec).
    + assert (Hnin : ~ In o (dict_keys init)).
      { intros Hin. apply Bool.not_true_iff_false in Hmem. apply Hmem.
        apply existsb_exists. exists o. split; [assumption | apply String.eqb_refl]. }
      rewrite (dict_set_keys_new String.eqb_spec) by assumption.
      now rewrite <- app_assoc.
Qed.

(** X2.  When the reducer returns, the keys of [option_scores] are the
    reported option labels, each once, in the order in which the two loops
    first meet them. *)
Theorem option_scores_key_order (analyses : dict Domain (DomainAnalysis F))
    (weights : dict Domain F) :
  covers weights analyses ->
  contributions analyses weights <> [] ->
  exists r,
    _perform_synthesis analyses weights = Ok r /\
    dict_keys (option_scores r) =
      first_occurrences (map fst (contributions analyses weights)) /\
    NoDup (dict_keys (option_scores r)).
Proof.
  intros Hcov Hne. destruct (_perform_synthesis_returns Hcov Hne) as (best & Hrun).
  eexists. split; [exact Hrun|]. cbn [option_scores]. split.
  - now rewrite add_score_keys.
  - apply add_score_NoDup. constructor.
Qed.
End ReducerOutcome.

(** ** The reducer: ties *)

Section TieBreak.
Context {F : Type} `{PyFloat F}.

Lemma option_scores_values (analyses : dict Domain (DomainAnalysis F))
    (weights : dict Domain F) (opt : string) (score : F) :
  In (opt, score) (fold_left add_score (contributions analyses weights) []) ->
  In opt (map fst (contributions analyses weights)) /\
  score = spec_score analyses weights opt.
Proof.
  intros Hin.
  assert (Hnd : NoDup (dict_keys (fold_left add_score (contributions analyses weights) [])))
    by (apply add_score_NoDup; constructor).
  pose proof (dict_In_get String.eqb_spec opt score _ Hnd Hin) as Hget.
  rewrite add_score_get in Hget. unfold spec_score.
  destruct (contributions_to opt (contributions analyses weights)) as [|t ts] eqn:Hts.
  - discriminate Hget.
  - injection Hget as <-. split; [|reflexivity].
    destruct (in_dec string_dec opt (map fst (contributions analyses weights)))
      as [Hyes|Hno]; [assumption|].
    apply contributions_to_nil in Hno. congruence.
Qed.

(** X3.  [max(scores, key=scores.get)] breaks ties towards the earliest
    key.  In any arithmetic whose [>] is a strict order, when every score
    compares as a number does (in binary64: when no score is NaN), every
    option listed before [recommended_option] in [option_scores] has a
    score that the recommended score exceeds, and no option listed after it
    has a score that exceeds the recommended score. *)
Theorem recommended_option_first_maximum
    (analyses : dict Domain (DomainAnalysis F)) (weights : dict Domain F) :
  strict_order ->
  covers weights analyses ->
  contributions analyses weights <> [] ->
  (forall opt, In opt (map fst (contributions analyses weights)) ->
     comparable (spec_score analyses weights opt)) ->
  exists r before best after,
    _perform_synthesis analyses weights = Ok r /\
    option_scores r = before ++ (recommended_option r, best) :: after /\
    (forall opt score, In (opt, score) before -> fgtb best score = true) /\
    (forall opt score, In (opt, score) after -> fgtb score best = false).
Proof.
  intros Horder Hcov Hne Hcmp. unfold _perform_synthesis.
  rewrite (accumulate_scores_fold Hcov). cbn [rbind].
  pose proof (@add_score_nonempty _ _ _ [] Hne) as Hscores.
  pose proof (@option_scores_values analyses weights) as Hvalues.
  destruct (fold_left add_score (contributions analyses weights) []) as [|kv tl];
    [congruence|].
  cbn [py_max_key rbind].
  destruct (@max_loop_first _ _ kv tl Horder) as (l1 & v & l2 & Heq & H1 & H2).
  { intros [opt score] Hin. cbn [snd].
    destruct (Hvalues opt score (or_intror Hin)) as [Hopt ->]. now apply Hcmp. }
  eexists. exists l1, v, l2. split; [reflexivity|].
  cbn [option_scores recommended_option]. split; [exact Heq|]. split.
  - intros opt score Hin. exact (H1 (opt, score) Hin).
  - intros opt score Hin. exact (H2 (opt, score) Hin).
Qed.
End TieBreak.

(** ** The reducer: the sign of the scores *)

Module ReducerReal.
Import RealArith RealSpec.
Local Open Scope R_scope.

Lemma add_score_nonneg (d : dict string R) (c : string * R) :
  (forall kv, In kv d -> 0 <= snd kv) -> 0 <= snd c ->
  forall kv, In kv (add_score d c) -> 0 <= snd kv.
Proof.
  destruct c as [k t]. unfold add_score, dict_get_default. cbn [fst snd].
  induction d as [|[k' v'] tl IH]; intros Hd Ht kv.
  - simpl. intros [<-|[]]. simpl. lra.
  - cbn [dict_get dict_set]. destruct (String.eqb k k') eqn:Hk.
    + intros [<-|Hin].
      * simpl. pose proof (Hd (k', v') (or_introl eq_refl)) as Hv. simpl in Hv. lra.
      * apply Hd. now right.
    + intros [<-|Hin].
      * apply (Hd (k', v')). now left.
      * apply IH; try assumption. intros x Hx. apply Hd. now right.
Qed.

Lemma add_score_fold_nonneg (cs : list (string * R)) (init : dict string R) :
  (forall kv, In kv init -> 0 <= snd kv) ->
  (forall c, In c cs -> 0 <= snd c) ->
  forall kv, In kv (fold_left add_score cs init) -> 0 <= snd kv.
Proof.
  revert init. induction cs as [|c tl IH]; intros init Hinit Hcs; simpl.
  - exact Hinit.
  - apply IH.
    + apply add_score_nonneg; [assumption | apply Hcs; now left].
    + intros x Hx. apply Hcs. now right.
Qed.

Lemma weight_of_nonneg (weights : dict Domain R) (dom : Domain) :
  (forall d w, In (d, w) weights -> 0 <= w) -> 0 <= weight_of weights dom.
Proof.
  intros Hw. unfold weight_of, dict_get_default.
  destruct (dict_get Domain_eqb dom weights) as [w|] eqn:Hget.
  - apply (Hw dom). now apply (dict_get_In Domain_eqb_spec).
  - simpl. lra.
Qed.

(** X5.  Weights, probabilities and confidences that are not negative give
    scores that are not negative. *)
Theorem option_scores_nonnegative
    (analyses : dict Domain (DomainAnalysis R)) (weights : dict Domain R) :
  (forall dom w, In (dom, w) weights -> 0 <= w) ->
  (forall dom a, In (dom, a) analyses ->
     0 <= confidence a /\ forall opt p, In (opt, p) (predictions a) -> 0 <= p) ->
  covers weights analyses ->
  contributions analyses weights <> [] ->
  exists r,
    _perform_synthesis analyses weights = Ok r /\
    forall opt score, In (opt, score) (option_scores r) -> 0 <= score.
Proof.
  intros Hw Ha Hcov Hne. destruct (_perform_synthesis_returns Hcov Hne) as (best & Hrun).
  eexists. split; [exact Hrun|]. cbn [option_scores].
  intros opt score Hin.
  apply (@add_score_fold_nonneg (contributions analyses weights) [] ) with (kv := (opt, score));
    [intros kv [] | | exact Hin].
  intros c Hc. unfold contributions in Hc. apply in_flat_map in Hc.
  destruct Hc as ([dom a] & Hda & Hc). apply in_map_iff in Hc.
  destruct Hc as ([o p] & <- & Hop). cbn [fst snd].
  destruct (Ha dom a Hda) as [Hconf Hp].
  change (0 <= p * weight_of weights dom * confidence a).
  apply Rmult_le_pos; [apply Rmult_le_pos|]; try assumption.
  - now apply (Hp o).
  - now apply weight_of_nonneg.
Qed.
End ReducerReal.

(** ** Context weighting on any dictionary *)

Section ContextWeightsEdges.
Context {F : Type} `{PyFloat F}.
Local Open Scope py_scope.

Lemma normalize_weights_stays_raised (e : exn) (total : F) (w : dict Domain F) :
  fold_left
    (fun acc kv =>
       out <- acc ;;
       q <- py_div (snd kv) total ;;
       Ok (dict_set Domain_eqb (fst kv) q out))
    w (Raise e) = Raise e.
Proof. induction w as [|kv tl IH]; simpl; [reflexivity | exact IH]. Qed.

Lemma adjust_weights_keys (d : Decision F) (base w : dict Domain F) :
  adjust_weights d base = Ok w -> dict_keys w = dict_keys base.
Proof.
  unfold adjust_weights. destruct (impact_scale d =? "global")%string.
  - unfold dict_getitem.
    destruct (dict_get Domain_eqb SYSTEMS_THINKING base) as [x|] eqn:Hget; simpl;
      [|discriminate].
    intros [= <-]. apply (dict_set_keys_old Domain_eqb_spec).
    apply (dict_get_In Domain_eqb_spec) in Hget.
    change (In (fst (SYSTEMS_THINKING, x)) (map fst base)). now apply in_map.
  - now intros [= <-].
Qed.

(** X6.  Under ["global"], a weight dictionary without the Systems-Thinking
    key makes [_calculate_context_weights] raise [KeyError]; the only trace
    in the store is the unmodified copy, every dictionary that existed is as
    it was. *)
Theorem context_weights_missing_key
    (self : UniversalIntelligenceSynthesis F) (d : Decision F) (st : store F) :
  impact_scale d = "global"%string ->
  ~ In SYSTEMS_THINKING (dict_keys (store_get (domain_weights self) st)) ->
  _calculate_context_weights self d st =
  (Raise KeyError, st ++ [store_get (domain_weights self) st]).
Proof.
  intros Hglobal Hmiss. rewrite _calculate_context_weights_run.
  unfold context_weights, adjust_weights.
  apply String.eqb_eq in Hglobal. rewrite Hglobal.
  apply (dict_get_None Domain_eqb_spec) in Hmiss.
  unfold dict_getitem. rewrite Hmiss. reflexivity.
Qed.

(** X7.  When the weights left by the rule are not an empty dictionary and
    their sum is zero, [_calculate_context_weights] raises
    [ZeroDivisionError]; on an empty dictionary there is nothing to divide and
    it returns the empty dictionary. *)
Theorem context_weights_zero_sum
    (self : UniversalIntelligenceSynthesis F) (d : Decision F) (st : store F) :
  (forall w,
     adjust_weights d (store_get (domain_weights self) st) = Ok w ->
     w <> [] ->
     fis_zero (py_sum (dict_values w)) = true ->
     fst (_calculate_context_weights self d st) = Raise ZeroDivisionError) /\
  (impact_scale d <> "global"%string ->
   store_get (domain_weights self) st = [] ->
   fst (_calculate_context_weights self d st) = Ok []).
Proof.
  split.
  - intros w Hadj Hne Hzero. rewrite _calculate_context_weights_run. cbn [fst].
    unfold context_weights. rewrite Hadj. cbn [rbind].
    destruct w as [|kv tl]; [congruence|].
    unfold normalize_weights.
    set (total := py_sum (dict_values (kv :: tl))) in *.
    assert (Hdiv : py_div (snd kv) total = Raise ZeroDivisionError)
      by (unfold py_div; now rewrite Hzero).
    cbn [fold_left rbind]. rewrite Hdiv. cbn [rbind].
    apply normalize_weights_stays_raised.
  - intros Hscale Hempty. rewrite _calculate_context_weights_run. cbn [fst].
    unfold context_weights, adjust_weights.
    apply String.eqb_neq in Hscale. rewrite Hscale, Hempty. reflexivity.
Qed.
Lemma normalized_values (w : dict Domain F) :
  dict_values (normalized w) =
  map (fun v => fdiv v (py_sum (dict_values w))) (dict_values w).
Proof. unfold normalized, dict_values. now rewrite !map_map. Qed.

Lemma normalized_keys (w : dict Domain F) : dict_keys (normalized w) = dict_keys w.
Proof. unfold normalized, dict_keys. now rewrite map_map. Qed.

(** X8.  Whatever dictionary of distinct keys [self.domain_weights] holds,
    if the sum of the weights left by the rule is not zero then
    [_calculate_context_weights] returns them divided by that sum: the same
    keys in the same order, every value the quotient of the weight and the
    sum; the store gains the copy the rule was applied to and nothing else.
    (That the quotients add up to 1 is true of the base weights, C2; in
    binary64 it is not true of every dictionary.) *)
Theorem context_weights_any_dictionary
    (self : UniversalIntelligenceSynthesis F) (d : Decision F) (st : store F)
    (w : dict Domain F) :
  NoDup (dict_keys (store_get (domain_weights self) st)) ->
  adjust_weights d (store_get (domain_weights self) st) = Ok w ->
  fis_zero (py_sum (dict_values w)) = false ->
  _calculate_context_weights self d st = (Ok (normalized w), st ++ [w]) /\
  dict_keys (normalized w) = dict_keys (store_get (domain_weights self) st) /\
  dict_values (normalized w) =
    map (fun v => fdiv v (py_sum (dict_values w))) (dict_values w).
Proof.
  intros Hnd Hadj Hsum. pose proof (adjust_weights_keys _ _ Hadj) as Hkeys.
  split; [|split].
  - rewrite _calculate_context_weights_run.
    unfold context_weights. rewrite Hadj. cbn [rbind]. f_equal.
    apply normalize_weights_ok; [assumption | now rewrite Hkeys].
  - now rewrite normalized_keys.
  - apply normalized_values.
Qed.
End ContextWeightsEdges.

(** ** Sums of equal terms *)

Module GameTheoryReal.
Import RealArith RealSpec.
Local Open Scope R_scope.

Lemma Rsum_repeat (t : R) (n : nat) : Rsum (repeat t n) = INR n * t.
Proof.
  induction n as [|n IH].
  - simpl. lra.
  - change (Rsum (repeat t (S n))) with (t + Rsum (repeat t n)).
    rewrite IH, S_INR. lra.
Qed.

End GameTheoryReal.

(** ** The confidence metrics: bounds *)

Module MetricsReal.
Import RealArith RealSpec.
Local Open Scope R_scope.

Lemma Rsum_bounds (a b : R) (xs : list R) :
  (forall x, In x xs -> a <= x <= b) ->
  INR (List.length xs) * a <= Rsum xs <= INR (List.length xs) * b.
Proof.
  induction xs as [|x tl IH]; intros Hall.
  - simpl. lra.
  - change (Rsum (x :: tl)) with (x + Rsum tl).
    change (List.length (x :: tl)) with (S (List.length tl)). rewrite S_INR.
    pose proof (Hall x (or_introl eq_refl)) as Hx.
    assert (Htl : forall y, In y tl -> a <= y <= b) by (intros y Hy; apply Hall; now right).
    specialize (IH Htl). lra.
Qed.

Lemma INR_length_pos {A : Type} (xs : list A) : xs <> [] -> 0 < INR (List.length xs).
Proof.
  intros Hne. destruct xs as [|x tl]; [congruence|].
  change (List.length (x :: tl)) with (S (List.length tl)). rewrite S_INR.
  pose proof (pos_INR (List.length tl)). lra.
Qed.

Lemma arithmetic_mean_bounds (a b : R) (xs : list R) :
  xs <> [] ->
  (forall x, In x xs -> a <= x <= b) ->
  a <= arithmetic_mean xs <= b.
Proof.
  intros Hne Hall. unfold arithmetic_mean.
  pose proof (@Rsum_bounds a b xs Hall) as [Hlo Hhi].
  pose proof (@INR_length_pos _ xs Hne) as Hn.
  split.
  - apply Rmult_le_reg_r with (r := INR (List.length xs)); [assumption|].
    unfold Rdiv. rewrite Rmult_assoc, Rinv_l by lra. lra.
  - apply Rmult_le_reg_r with (r := INR (List.length xs)); [assumption|].
    unfold Rdiv. rewrite Rmult_assoc, Rinv_l by lra. lra.
Qed.

Lemma population_deviation_bounds (xs : list R) :
  xs <> [] ->
  (forall x, In x xs -> 0 <= x <= 1) ->
  0 <= population_standard_deviation xs <= 1.
Proof.
  intros Hne Hall. unfold population_standard_deviation.
  split; [apply sqrt_pos|].
  rewrite <- sqrt_1. apply sqrt_le_1_alt.
  pose proof (@arithmetic_mean_bounds 0 1 xs Hne Hall) as Hm.
  unfold population_variance.
  set (m := arithmetic_mean xs) in *.
  assert (Hsq : forall y, In y (map (fun x => (x - m) * (x - m)) xs) -> 0 <= y <= 1).
  { intros y Hy. apply in_map_iff in Hy. destruct Hy as (x & <- & Hx).
    pose proof (Hall x Hx) as Hx01.
    assert (Hp : 0 <= (1 - (x - m)) * (1 + (x - m))) by (apply Rmult_le_pos; lra).
    split; [apply (Rle_0_sqr (x - m))|].
    replace ((x - m) * (x - m)) with (1 - (1 - (x - m)) * (1 + (x - m))) by ring.
    lra. }
  pose proof (@arithmetic_mean_bounds 0 1 (map (fun x => (x - m) * (x - m)) xs)) as Hb.
  unfold arithmetic_mean in Hb. rewrite length_map in Hb.
  apply Hb; [|exact Hsq].
  destruct xs; [congruence | discriminate].
Qed.

Lemma metrics_unfold (analyses : dict Domain (DomainAnalysis R)) :
  average_confidence (_calculate_confidence_metrics analyses) =
    arithmetic_mean (confidences analyses) /\
  synthesis_reliability (_calculate_confidence_metrics analyses) =
    arithmetic_mean (confidences analyses) *
    (1 - population_standard_deviation (confidences analyses)).
Proof.
  split.
  - apply MeanFacts.np_mean_arithmetic_mean.
  - cbn [_calculate_confidence_metrics synthesis_reliability].
    now rewrite DeviationFacts.np_std_population, MeanFacts.np_mean_arithmetic_mean.
Qed.

Lemma confidences_bounds (analyses : dict Domain (DomainAnalysis R)) :
  (forall dom a, In (dom, a) analyses -> 0 <= confidence a <= 1) ->
  forall x, In x (confidences analyses) -> 0 <= x <= 1.
Proof.
  intros Hall x Hx. unfold confidences, dict_values in Hx.
  apply in_map_iff in Hx. destruct Hx as (a & <- & Ha).
  apply in_map_iff in Ha. destruct Ha as ([dom a'] & <- & Hda). now apply (Hall dom).
Qed.

(** X10.  For a non-empty collection of analyses with confidences in
    [0, 1], [average_confidence] lies in [0, 1] and [synthesis_reliability]
    lies between 0 and [average_confidence]: the reliability is never
    negative, so no clamping is needed. *)
Theorem confidence_metrics_bounds (analyses : dict Domain (DomainAnalysis R)) :
  analyses <> [] ->
  (forall dom a, In (dom, a) analyses -> 0 <= confidence a <= 1) ->
  let m := _calculate_confidence_metrics analyses in
  0 <= average_confidence m <= 1 /\
  0 <= synthesis_reliability m <= average_confidence m.
Proof.
  intros Hne Hall m. unfold m.
  destruct (metrics_unfold analyses) as [-> ->].
  assert (Hconfs : confidences analyses <> []).
  { unfold confidences, dict_values. destruct analyses; [congruence | discriminate]. }
  pose proof (@arithmetic_mean_bounds 0 1 _ Hconfs (@confidences_bounds analyses Hall)) as Havg.
  pose proof (@population_deviation_bounds _ Hconfs (@confidences_bounds analyses Hall)) as Hsd.
  split; [assumption | nra].
Qed.

End MetricsReal.

(** ** Repeated option labels *)

Section RepeatedLabelsShape.
Context {F : Type} `{PyFloat F}.

Lemma contributions_to_app (opt : string) (l1 l2 : list (string * F)) :
  contributions_to opt (l1 ++ l2) = contributions_to opt l1 ++ contributions_to opt l2.
Proof. unfold contributions_to. now rewrite filter_app, map_app. Qed.

Lemma contributions_to_constant (opt : string) (t : F) (opts : list string) :
  contributions_to opt (constant_dict t opts) = repeat t (count_occ string_dec opts opt).
Proof.
  unfold contributions_to, constant_dict.
  induction opts as [|o tl IH]; simpl; [reflexivity|].
  destruct (String.eqb_spec o opt) as [Heq|Hne]; destruct (string_dec o opt); try congruence.
  simpl. now rewrite IH.
Qed.

Lemma contributions_to_domains (opt : string) (t : Domain -> F) (opts : list string)
    (doms : list Domain) :
  contributions_to opt (flat_map (fun dom => constant_dict (t dom) opts) doms) =
  flat_map (fun dom => repeat (t dom) (count_occ string_dec opts opt)) doms.
Proof.
  induction doms as [|dom tl IH]; simpl; [reflexivity|].
  now rewrite contributions_to_app, IH, contributions_to_constant.
Qed.

(** The scores of the stub for any options list. *)
Lemma synthesize_pure_repeated (d : Decision F) :
  fis_zero (plain_total (F:=F)) = false ->
  fis_zero (global_total (F:=F)) = false ->
  options d <> [] ->
  exists r,
    synthesize_pure d _initialize_domain_weights = Ok r /\
    forall opt, In opt (options d) ->
      dict_get String.eqb opt (option_scores (decision_synthesis r)) =
      Some (repeated_score (stub_term d (spec_context_weights d))
              (count_occ string_dec (options d) opt)).
Proof.
  intros Hp Hg Hne. unfold synthesize_pure.
  rewrite analyze_all_total. cbn [rbind].
  rewrite (context_weights_base d Hp Hg). cbn [rbind].
  fold (stub_analyses d).
  assert (Hcov : covers (spec_context_weights d) (stub_analyses d))
    by (intros dom _; apply spec_context_weights_complete).
  assert (Hcs : contributions (stub_analyses d) (spec_context_weights d) <> []).
  { unfold stub_analyses. rewrite contributions_stub.
    destruct (options d); [congruence | discriminate]. }
  destruct (_perform_synthesis_returns Hcov Hcs) as (best & Hrun).
  rewrite Hrun. cbn [rbind]. eexists. split; [reflexivity|].
  cbn [decision_synthesis option_scores]. intros opt Hin.
  rewrite add_score_get.
  unfold stub_analyses. rewrite contributions_stub, contributions_to_domains.
  assert (Hcount : count_occ string_dec (options d) opt <> 0%nat).
  { apply (count_occ_In string_dec) in Hin. lia. }
  destruct (count_occ string_dec (options d) opt) as [|c] eqn:Hc; [congruence|].
  reflexivity.
Qed.
End RepeatedLabelsShape.

Module RepeatedLabels.
Import RealArith RealSpec.
Local Open Scope R_scope.

Lemma Rsum_repeated (t : Domain -> R) (c : nat) (doms : list Domain) :
  Rsum (flat_map (fun dom => repeat (t dom) c) doms) = INR c * Rsum (map t doms).
Proof.
  induction doms as [|dom tl IH]; simpl.
  - lra.
  - rewrite MeanFacts.Rsum_app, IH, GameTheoryReal.Rsum_repeat.
    change (Rsum (t dom :: map t tl)) with (t dom + Rsum (map t tl)). lra.
Qed.

Lemma uniform_score_Rsum (t : Domain -> R) (doms : list Domain) (s : R) :
  uniform_score t doms s = s + Rsum (map t doms).
Proof.
  unfold uniform_score. revert s. induction doms as [|dom tl IH]; intros s; simpl.
  - lra.
  - rewrite IH. change (@fadd R R_float s (t dom)) with (s + t dom).
    change (Rsum (t dom :: map t tl)) with (t dom + Rsum (map t tl)). lra.
Qed.

(** Over the reals a label listed [c] times has [c] times the score of a
    label listed once. *)
Lemma R_repeated_score (d : Decision R) (c : nat) :
  options d <> [] ->
  repeated_score (stub_term d (spec_context_weights d)) c =
  INR c * (85 / 100 / INR (List.length (options d))).
Proof.
  intros Hne. rewrite <- (UniformReal.R_stub_score d Hne).
  unfold repeated_score, stub_score. rewrite uniform_score_Rsum.
  change (@fadd R R_float) with Rplus. change (@of_int R R_float 0%Z) with 0.
  rewrite MeanFacts.fold_left_Rplus, Rsum_repeated. lra.
Qed.
End RepeatedLabels.

(** X12.  Option labels need not be distinct.  For a decision with a
    non-empty options list, run in a store of a constructed network, the
    score of a label is the sum in which, from 0, every domain in turn adds
    [(1 / n) * weight * 0.85] as many times as the label occurs among the n
    options; hence two labels that occur equally often have the same score.
    That is proved of binary64, every operation rounded.  Over the reals the
    score is 0.85 / n times the number of occurrences. *)
Theorem stub_scores_count_occurrences :
  (forall (net : GlobalCoordinationNetwork spec_float) (d : Decision spec_float)
          (st : store spec_float),
      reachable net st ->
      options d <> [] ->
      exists r,
        fst (synthesize_decision (intelligence_engine net) d st) = Ok r /\
        (forall opt, In opt (options d) ->
           dict_get String.eqb opt (option_scores (decision_synthesis r)) =
           Some (repeated_score (stub_term d (spec_context_weights d))
                   (count_occ string_dec (options d) opt))) /\
        (forall opt1 opt2, In opt1 (options d) -> In opt2 (options d) ->
           count_occ string_dec (options d) opt1 = count_occ string_dec (options d) opt2 ->
           dict_get String.eqb opt1 (option_scores (decision_synthesis r)) =
           dict_get String.eqb opt2 (option_scores (decision_synthesis r)))) /\
  (forall (net : GlobalCoordinationNetwork R) (d : Decision R) (st : store R),
      reachable net st ->
      options d <> [] ->
      exists r,
        fst (synthesize_decision (intelligence_engine net) d st) = Ok r /\
        forall opt, In opt (options d) ->
          dict_get String.eqb opt (option_scores (decision_synthesis r)) =
          Some (INR (count_occ string_dec (options d) opt) *
                (85 / 100 / INR (List.length (options d))))%R).
Proof.
  split; intros net d st Hr Hne; destruct (reachable_weights Hr) as [_ Hbase];
    rewrite synthesize_decision_run; cbn [fst]; rewrite Hbase.
  - destruct (synthesize_pure_repeated d B64Facts.B64_plain_total_nonzero
                B64Facts.B64_global_total_nonzero Hne) as (r & Hrun & Hscores).
    exists r. split; [exact Hrun|]. split; [exact Hscores|].
    intros opt1 opt2 H1 H2 Hcount.
    now rewrite (Hscores opt1 H1), (Hscores opt2 H2), Hcount.
  - destruct (synthesize_pure_repeated d RealFacts.R_plain_total_nonzero
                RealFacts.R_global_total_nonzero Hne) as (r & Hrun & Hscores).
    exists r. split; [exact Hrun|].
    intros opt Hin. rewrite (Hscores opt Hin).
    now rewrite RepeatedLabels.R_repeated_score.
Qed.

(** ** The benchmark of tests/stress_1M.py *)

Section Benchmark.
Context {F : Type} `{PyFloat F}.
Local Open Scope py_scope.

Lemma stress_step_run (net : GlobalCoordinationNetwork F) (adoptions : list F)
    (draw : string * list string * F) (st : store F) :
  nondegenerate_totals ->
  fgtb (benchmark_score (F:=F)) benchmark_score = false ->
  reachable net st ->
  exists st',
    stress_step net adoptions draw st = (Ok (adoptions ++ [benchmark_score]), st') /\
    reachable net st'.
Proof.
  intros [Hp Hg] Hirr Hr. destruct (reachable_weights Hr) as [_ Hbase].
  destruct draw as [[c s] m].
  set (d := benchmark_decision c s m).
  exists (snd (synthesize_decision (intelligence_engine net) d st)). split.
  - unfold stress_step, bind, ret. cbn [fst snd]. fold d.
    rewrite synthesize_decision_run. rewrite Hbase. cbn [snd].
    assert (Hnd : NoDup (options d))
      by (repeat constructor; simpl; intuition discriminate).
    rewrite (@synthesize_pure_stub _ _ d "contribute 0"%string ["contribute full"%string]
               Hp Hg eq_refl Hnd Hirr).
    reflexivity.
  - now apply reach_synthesize.
Qed.

Lemma stress_loop_run (net : GlobalCoordinationNetwork F)
    (draws : list (string * list string * F)) (adoptions : list F) (st : store F) :
  nondegenerate_totals ->
  fgtb (benchmark_score (F:=F)) benchmark_score = false ->
  reachable net st ->
  exists st',
    stress_loop net adoptions draws st =
      (Ok (adoptions ++ repeat benchmark_score (List.length draws)), st') /\
    reachable net st'.
Proof.
  intros Hnz Hirr. revert adoptions st.
  induction draws as [|draw tl IH]; intros adoptions st Hr.
  - exists st. split; [|assumption]. simpl. now rewrite app_nil_r.
  - destruct (stress_step_run adoptions draw Hnz Hirr Hr) as (st1 & Hstep & Hr1).
    destruct (IH (adoptions ++ [benchmark_score]) st1 Hr1) as (st2 & Hloop & Hr2).
    exists st2. split; [|assumption].
    cbn [stress_loop]. unfold bind. rewrite Hstep, Hloop.
    now rewrite <- app_assoc.
Qed.

Lemma stress_adoptions_run (draws : list (string * list string * F)) (st : store F) :
  nondegenerate_totals ->
  fgtb (benchmark_score (F:=F)) benchmark_score = false ->
  fst (stress_adoptions draws st) = Ok (repeat benchmark_score (List.length draws)).
Proof.
  intros Hnz Hirr. unfold stress_adoptions, bind.
  destruct (GlobalCoordinationNetwork_init_run st) as (net & Hinit & _).
  rewrite Hinit.
  assert (Hr : reachable net (st ++ [_initialize_domain_weights]))
    by (now apply reach_init with (st0 := st)).
  destruct (stress_loop_run draws [] Hnz Hirr Hr) as (st' & Hloop & _).
  now rewrite Hloop.
Qed.
End Benchmark.

Module BenchmarkFacts.
Import RealArith RealSpec Binary64.

Lemma R_benchmark_score : benchmark_score (F:=R) = (425 / 1000)%R.
Proof.
  unfold benchmark_score. rewrite UniformReal.R_stub_score by discriminate.
  simpl. lra.
Qed.

Lemma R_adoption_mean (a : R) (n : nat) :
  n <> 0%nat -> adoption_mean (repeat a n) = Ok a.
Proof.
  intros Hn. unfold adoption_mean, py_div. rewrite repeat_length.
  change (@fis_zero R R_float (of_int (Z.of_nat n))) with (Ris_zero (IZR (Z.of_nat n))).
  rewrite <- INR_IZR_INZ. rewrite RealFacts.Ris_zero_false by (now apply not_0_INR).
  f_equal. unfold py_sum.
  change (@fdiv R R_float) with Rdiv. change (@fadd R R_float) with Rplus.
  change (@of_int R R_float 0%Z) with 0%R.
  rewrite MeanFacts.fold_left_Rplus, GameTheoryReal.Rsum_repeat, <- INR_IZR_INZ.
  field. now apply not_0_INR.
Qed.

Lemma B64_benchmark_mean :
  exists mean,
    adoption_mean (F:=spec_float) (repeat benchmark_score N_INSTANCES) = Ok mean /\
    fgtb (float_lit 70 100) mean = true.
Proof.
  exists (S754_finite false 7656119366529975 (-54)).
  split; vm_compute; reflexivity.
Qed.
End BenchmarkFacts.

(** X13.  The figure the benchmark asserts to be at least 0.70 cannot reach
    it: whatever the draws, the context strings and the player names, every
    iteration records the same score for ["contribute full"], 0.425 over the
    reals, and their mean is below 0.70; in binary64, for the 1000 iterations
    of the benchmark, the mean computed with [sum] and [/] is below the
    double 0.70 as well. *)
Theorem benchmark_adoption_below_threshold :
  (forall (draws : list (string * list string * R)) (st : store R),
      draws <> [] ->
      exists adoptions,
        fst (stress_adoptions draws st) = Ok adoptions /\
        adoptions = repeat (425 / 1000)%R (List.length draws) /\
        adoption_mean adoptions = Ok (425 / 1000)%R /\
        fgtb (float_lit 70 100) (425 / 1000)%R = true) /\
  (forall (draws : list (string * list string * spec_float)) (st : store spec_float),
      List.length draws = N_INSTANCES ->
      exists adoptions mean,
        fst (stress_adoptions draws st) = Ok adoptions /\
        adoption_mean adoptions = Ok mean /\
        fgtb (float_lit 70 100) mean = true).
Proof.
  split.
  - intros draws st Hne. eexists. split; [|split; [|split]].
    + apply stress_adoptions_run;
        [exact R_nondegenerate_totals | apply RealFacts.Rgtb_irrefl].
    + now rewrite BenchmarkFacts.R_benchmark_score.
    + rewrite BenchmarkFacts.R_benchmark_score.
      apply BenchmarkFacts.R_adoption_mean. destruct draws; [congruence | discriminate].
    + change (RealArith.Rgtb (70 / 100) (425 / 1000) = true).
      unfold RealArith.Rgtb. destruct (Rlt_dec (425 / 1000) (70 / 100)); [reflexivity | lra].
  - intros draws st Hlen.
    destruct BenchmarkFacts.B64_benchmark_mean as (mean & Hmean & Hbelow).
    eexists. exists mean. split; [|split].
    + apply stress_adoptions_run;
        [exact B64_nondegenerate_totals | apply SFltb_irrefl].
    + rewrite Hlen. exact Hmean.
    + exact Hbelow.
Qed.

(** ** The further properties at sample inputs *)

Section SampleFacts.
Context {F : Type} `{PyFloat F}.

Lemma sample_analyses_covered : covers (F:=F) plain_weights sample_analyses.
Proof. intros dom _. destruct dom; simpl; tauto. Qed.

Lemma sample_analyses_report : contributions (F:=F) sample_analyses plain_weights <> [].
Proof.
  cbv [contributions sample_analyses all_domains map flat_map app predictions snd
       Domain_eqb Domain_eq_dec Domain_rec Domain_rect].
  discriminate.
Qed.
End SampleFacts.

Lemma option_scores_key_order_witness :
  exists r,
    _perform_synthesis (F:=spec_float) sample_analyses plain_weights = Ok r /\
    dict_keys (option_scores r) =
      first_occurrences
        (map fst (contributions (F:=spec_float) sample_analyses plain_weights)) /\
    NoDup (dict_keys (option_scores r)).
Proof.
  apply (@option_scores_key_order spec_float _ sample_analyses plain_weights).
  - apply sample_analyses_covered.
  - apply sample_analyses_report.
Defined.

Lemma sample_scores_comparable (opt : string) :
  In opt (map fst (contributions (F:=spec_float) sample_analyses plain_weights)) ->
  comparable (spec_score (F:=spec_float) sample_analyses plain_weights opt).
Proof.
  intros Hin. apply B64_comparable.
  assert (Hopt : opt = "A"%string \/ opt = "B"%string).
  { cbv [contributions sample_analyses all_domains map flat_map app predictions snd fst
         Domain_eqb Domain_eq_dec Domain_rec Domain_rect In] in Hin.
    intuition congruence. }
  destruct Hopt as [-> | ->]; vm_compute; discriminate.
Qed.

Lemma recommended_option_first_maximum_witness :
  exists r before best after,
    _perform_synthesis (F:=spec_float) sample_analyses plain_weights = Ok r /\
    option_scores r = before ++ (recommended_option r, best) :: after /\
    (forall opt score, In (opt, score) before -> fgtb best score = true) /\
    (forall opt score, In (opt, score) after -> fgtb score best = false).
Proof.
  apply (@recommended_option_first_maximum spec_float _ sample_analyses plain_weights).
  - apply B64_strict_order.
  - apply sample_analyses_covered.
  - apply sample_analyses_report.
  - apply sample_scores_comparable.
Defined.

Lemma plain_weights_nonnegative (dom : Domain) (w : R) :
  In (dom, w) (plain_weights (F:=R)) -> (0 <= w)%R.
Proof.
  unfold plain_weights, normalized.
  change (py_sum (dict_values (_initialize_domain_weights (F:=R)))) with (plain_total (F:=R)).
  rewrite RealFacts.R_plain_total.
  cbv [_initialize_domain_weights map fst snd float_lit fdiv of_int RealArith.R_float In].
  intros Hin.
  repeat (destruct Hin as [Hin|Hin]; [injection Hin as _ <-; lra|]).
  destruct Hin.
Qed.

Lemma sample_analyses_nonnegative (dom : Domain) (a : DomainAnalysis R) :
  In (dom, a) sample_analyses ->
  (0 <= confidence a)%R /\ forall opt p, In (opt, p) (predictions a) -> (0 <= p)%R.
Proof.
  unfold sample_analyses. intros Hin. apply in_map_iff in Hin.
  destruct Hin as (dom0 & Heq & _). injection Heq as _ <-.
  cbn [confidence predictions]. split.
  - destruct (Domain_eqb dom0 PHYSICS); simpl; lra.
  - intros opt p Hp. destruct (Domain_eqb dom0 ETHICS); simpl in Hp;
      repeat (destruct Hp as [Hp|Hp]; [injection Hp as _ <-; lra|]); destruct Hp.
Qed.

Lemma option_scores_nonnegative_witness :
  exists r,
    _perform_synthesis (F:=R) sample_analyses plain_weights = Ok r /\
    forall opt score, In (opt, score) (option_scores r) -> (0 <= score)%R.
Proof.
  apply (@ReducerReal.option_scores_nonnegative sample_analyses plain_weights).
  - apply plain_weights_nonnegative.
  - apply sample_analyses_nonnegative.
  - apply sample_analyses_covered.
  - apply sample_analyses_report.
Defined.

Lemma context_weights_missing_key_witness :
  _calculate_context_weights (F:=spec_float) sample_engine sample_decision
    (single_weight_store (of_int 1)) =
  (Raise KeyError,
   single_weight_store (of_int 1) ++
   [store_get (domain_weights (F:=spec_float) sample_engine)
      (single_weight_store (of_int 1))]).
Proof.
  apply (@context_weights_missing_key spec_float _ sample_engine sample_decision
           (single_weight_store (of_int 1))).
  - reflexivity.
  - simpl. intuition discriminate.
Defined.

Lemma context_weights_zero_sum_witness :
  fst (_calculate_context_weights (F:=spec_float) sample_engine repeated_label_decision
         (single_weight_store (of_int 0))) = Raise ZeroDivisionError.
Proof.
  apply (proj1 (@context_weights_zero_sum spec_float _ sample_engine
                  repeated_label_decision (single_weight_store (of_int 0)))
           [(GAME_THEORY, of_int 0)]).
  - reflexivity.
  - discriminate.
  - reflexivity.
Defined.

Lemma context_weights_any_dictionary_witness :
  let w := [(GAME_THEORY, of_int (F:=spec_float) 1); (ETHICS, of_int 3)] in
  _calculate_context_weights (F:=spec_float) sample_engine repeated_label_decision
    two_weight_store = (Ok (normalized w), two_weight_store ++ [w]) /\
  dict_keys (normalized w) =
    dict_keys (store_get (domain_weights (F:=spec_float) sample_engine) two_weight_store) /\
  dict_values (normalized w) =
    map (fun v => fdiv v (py_sum (dict_values w))) (dict_values w).
Proof.
  apply (@context_weights_any_dictionary spec_float _ sample_engine
           repeated_label_decision two_weight_store
           [(GAME_THEORY, of_int 1); (ETHICS, of_int 3)]).
  - simpl. repeat constructor; simpl; intuition discriminate.
  - reflexivity.
  - vm_compute. reflexivity.
Defined.

Lemma sample_confidence_bounds (dom : Domain) (a : DomainAnalysis R) :
  In (dom, a) sample_analyses -> (0 <= confidence a <= 1)%R.
Proof.
  unfold sample_analyses. intros Hin. apply in_map_iff in Hin.
  destruct Hin as (dom0 & Heq & _). injection Heq as _ <-.
  cbn [confidence]. destruct (Domain_eqb dom0 PHYSICS); simpl; lra.
Qed.

Lemma confidence_metrics_bounds_witness :
  let m := _calculate_confidence_metrics (F:=R) sample_analyses in
  (0 <= average_confidence m <= 1)%R /\
  (0 <= synthesis_reliability m <= average_confidence m)%R.
Proof.
  apply (@MetricsReal.confidence_metrics_bounds sample_analyses).
  - discriminate.
  - apply sample_confidence_bounds.
Defined.

Lemma stub_scores_count_occurrences_witness :
  exists r,
    fst (synthesize_decision (F:=spec_float) (intelligence_engine sample_network)
           repeated_label_decision sample_store) = Ok r /\
    (forall opt, In opt (options (F:=spec_float) repeated_label_decision) ->
       dict_get String.eqb opt (option_scores (decision_synthesis r)) =
       Some (repeated_score
               (stub_term repeated_label_decision
                  (spec_context_weights repeated_label_decision))
               (count_occ string_dec (options (F:=spec_float) repeated_label_decision)
                  opt))) /\
    (forall opt1 opt2,
       In opt1 (options (F:=spec_float) repeated_label_decision) ->
       In opt2 (options (F:=spec_float) repeated_label_decision) ->
       count_occ string_dec (options (F:=spec_float) repeated_label_decision) opt1 =
       count_occ string_dec (options (F:=spec_float) repeated_label_decision) opt2 ->
       dict_get String.eqb opt1 (option_scores (decision_synthesis r)) =
       dict_get String.eqb opt2 (option_scores (decision_synthesis r))).
Proof.
  apply (proj1 stub_scores_count_occurrences sample_network repeated_label_decision
           sample_store).
  - apply sample_store_reachable.
  - discriminate.
Defined.

Lemma benchmark_adoption_below_threshold_witness :
  let draws := [("Public-Goods Game MPCR=0.30"%string, ["player_0"%string], (3 / 10)%R)] in
  exists adoptions,
    fst (stress_adoptions draws []) = Ok adoptions /\
    adoptions = repeat (425 / 1000)%R (List.length draws) /\
    adoption_mean adoptions = Ok (425 / 1000)%R /\
    fgtb (float_lit 70 100) (425 / 1000)%R = true.
Proof.
  apply (proj1 benchmark_adoption_below_threshold
           [("Public-Goods Game MPCR=0.30"%string, ["player_0"%string], (3 / 10)%R)] []).
  discriminate.
Defined.
